(** * Classroom/Desk service: a shallow embedding of [main.py] and its models

    The service keeps two module-level dictionaries, [desks] and
    [classrooms], and exposes six handlers on each.  The handlers are
    embedded as computations in a state-and-exception monad over a [World]
    that holds the two dictionaries together with the two sources of
    nondeterminism the code reads: the wall clock ([datetime.utcnow]) and the
    identifier generator ([uuid4]).

    Pydantic models are records; [model_dump] and the keyword constructors
    (a model class called with keyword arguments) go through Python
    dictionaries, which are modelled as insertion-ordered association
    lists.

    A handler is modelled up to the value it returns or the exception it
    raises.  What FastAPI does around it is modelled only where the handlers
    depend on it: the validation of a request body against the declared
    model, which answers 422 without calling the handler.  Routing, the
    conversion of path and query parameters and the serialisation of the
    returned value are left out. *)

From Stdlib Require Import ZArith NArith List String Ascii Bool Lia.
Import ListNotations.
Open Scope string_scope.
Open Scope list_scope.
Open Scope Z_scope.

Set Implicit Arguments.
Set Warnings "-register-all".

(** ** Python values *)

(** A [UUID] is a 128-bit number, a [datetime] a count of microseconds. *)
Definition UUID := N.
Definition datetime := Z.

(** The values that travel through request bodies and [model_dump]
    dictionaries. *)
Inductive PyVal : Type :=
| VNone
| VBool (b : bool)
| VInt (z : Z)
| VStr (s : string)
| VUuid (u : UUID)
| VTime (t : datetime)
| VList (l : list PyVal)
| VDict (d : list (string * PyVal)).

(** Keys of a dictionary: a type with a boolean equality that decides
    Leibniz equality. *)
Class EqKey (K : Type) := {
  keqb : K -> K -> bool;
  keqb_spec : forall x y, reflect (x = y) (keqb x y)
}.

#[export] Instance EqKey_string : EqKey string :=
  {| keqb := String.eqb; keqb_spec := String.eqb_spec |}.

#[export] Instance EqKey_UUID : EqKey UUID :=
  {| keqb := N.eqb; keqb_spec := N.eqb_spec |}.

(** ** Python dictionaries

    A [dict] keeps its keys in insertion order; assigning to a key that is
    already present keeps the key's position, assigning to a new key appends
    it. *)
Module PyDict.
Section Keyed.
Context {K V : Type} `{EqKey K}.

Definition t := list (K * V).

(** [d.get(k)] *)
Fixpoint get (k : K) (d : t) : option V :=
  match d with
  | [] => None
  | (k', v) :: r => if keqb k k' then Some v else get k r
  end.

(** [k in d] *)
Definition mem (k : K) (d : t) : bool :=
  match get k d with Some _ => true | None => false end.

(** [d[k] = v] *)
Fixpoint set (k : K) (v : V) (d : t) : t :=
  match d with
  | [] => [(k, v)]
  | (k', v') :: r =>
      if keqb k k' then (k', v) :: r else (k', v') :: set k v r
  end.

(** [del d[k]] *)
Fixpoint del (k : K) (d : t) : t :=
  match d with
  | [] => []
  | (k', v') :: r => if keqb k k' then r else (k', v') :: del k r
  end.

(** [d.keys()] and [d.values()], in iteration order *)
Definition keys (d : t) : list K := map fst d.
Definition values (d : t) : list V := map snd d.

(** [d.update(e)] *)
Definition update (d e : t) : t :=
  fold_left (fun acc kv => set (fst kv) (snd kv) acc) e d.
End Keyed.
End PyDict.

(** A dictionary of keyword arguments or of dumped fields. *)
Definition Dict := list (string * PyVal).

(** ** models/desk.py *)

(** [DeskConfig]: a [str] constrained by the pattern [^(Left|Right)$];
    pydantic matches the pattern against the whole string. *)
Definition DeskConfig_ok (s : string) : bool :=
  String.eqb s "Left" || String.eqb s "Right".

(** [DeskBase]: [id] has a default factory, so an instance remembers whether
    its [id] was supplied ([model_fields_set]); [label] and [hand_config] are
    required and hence always set. *)
Record DeskBase := {
  db_id : UUID;
  db_label : string;
  db_hand_config : string;
  db_id_set : bool
}.

(** [DeskCreate(DeskBase)] adds no field. *)
Definition DeskCreate := DeskBase.

(** [DeskUpdate]: both fields are [Optional[str]] with default [None].  The
    outer [option] records whether the field was supplied
    ([model_fields_set]), the inner one is Python's [None]. *)
Record DeskUpdate := {
  du_label : option (option string);
  du_hand_config : option (option string)
}.

Record DeskRead := {
  dr_id : UUID;
  dr_label : string;
  dr_hand_config : string;
  dr_created_at : datetime;
  dr_updated_at : datetime
}.

(** ** models/classroom.py *)

Record ClassroomBase := {
  cb_id : UUID;
  cb_room_no : string;
  cb_building : string;
  cb_university : option string;
  cb_desks : list DeskBase
}.

Definition ClassroomCreate := ClassroomBase.

Record ClassroomUpdate := {
  cu_room_no : option (option string);
  cu_building : option (option string);
  cu_university : option (option string);
  cu_desks : option (option (list DeskBase))
}.

Record ClassroomRead := {
  cr_id : UUID;
  cr_room_no : string;
  cr_building : string;
  cr_university : option string;
  cr_desks : list DeskBase;
  cr_created_at : datetime;
  cr_updated_at : datetime
}.

(** ** The world: the two stores, the clock and the identifier generator *)

Record World := {
  classrooms : list (UUID * ClassroomRead);
  desks : list (UUID * DeskRead);
  (** [clock n] is what the [n]-th call of [datetime.utcnow] returns *)
  clock : nat -> datetime;
  ticks : nat;
  (** [uuid_src n] is what the [n]-th call of [uuid4] returns *)
  uuid_src : nat -> UUID;
  uuid_draws : nat
}.

Definition with_desks (w : World) (d : list (UUID * DeskRead)) : World :=
  {| classrooms := classrooms w; desks := d;
     clock := clock w; ticks := ticks w;
     uuid_src := uuid_src w; uuid_draws := uuid_draws w |}.

Definition with_classrooms (w : World) (c : list (UUID * ClassroomRead)) : World :=
  {| classrooms := c; desks := desks w;
     clock := clock w; ticks := ticks w;
     uuid_src := uuid_src w; uuid_draws := uuid_draws w |}.

Definition with_ticks (w : World) (n : nat) : World :=
  {| classrooms := classrooms w; desks := desks w;
     clock := clock w; ticks := n;
     uuid_src := uuid_src w; uuid_draws := uuid_draws w |}.

Definition with_uuid_draws (w : World) (n : nat) : World :=
  {| classrooms := classrooms w; desks := desks w;
     clock := clock w; ticks := ticks w;
     uuid_src := uuid_src w; uuid_draws := n |}.

(** ** Exceptions and the handler monad *)

Inductive Exc : Type :=
| HTTPException (status_code : Z) (detail : string)
| RequestValidationError          (* raised by the framework: status 422 *)
| ValidationError                 (* pydantic, raised inside a handler *)
| AttributeError (name : string)
| KeyError
| TypeError.

Inductive Result (A : Type) : Type :=
| Ok (a : A)
| Raise (e : Exc).
Arguments Ok {A} a.
Arguments Raise {A} e.

(** A computation runs in a world and leaves a world behind, also when it
    raises: Python does not undo what was done before the exception. *)
Definition M (A : Type) : Type := World -> Result A * World.

Definition ret {A} (a : A) : M A := fun w => (Ok a, w).

Definition raise {A} (e : Exc) : M A := fun w => (Raise e, w).

Definition bind {A B} (m : M A) (k : A -> M B) : M B :=
  fun w =>
    match m w with
    | (Ok a, w') => k a w'
    | (Raise e, w') => (Raise e, w')
    end.

Declare Scope py_scope.
Delimit Scope py_scope with py.
Notation "x <- m ;; k" := (bind m (fun x => k))
  (at level 61, m at next level, right associativity) : py_scope.
Notation "m ;;; k" := (bind m (fun _ => k))
  (at level 61, right associativity) : py_scope.
Open Scope py_scope.

(** [datetime.utcnow()] *)
Definition utcnow : M datetime :=
  fun w => (Ok (clock w (ticks w)), with_ticks w (S (ticks w))).

(** [uuid4()] *)
Definition uuid4 : M UUID :=
  fun w => (Ok (uuid_src w (uuid_draws w)), with_uuid_draws w (S (uuid_draws w))).

(** Reading and assigning the module-level dictionaries. *)
Definition the_desks : M (list (UUID * DeskRead)) := fun w => (Ok (desks w), w).
Definition the_classrooms : M (list (UUID * ClassroomRead)) :=
  fun w => (Ok (classrooms w), w).

(** [d[k]], which raises [KeyError] on a missing key *)
Definition getitem {K V} `{EqKey K} (d : list (K * V)) (k : K) : M V :=
  match PyDict.get k d with
  | Some v => ret v
  | None => raise KeyError
  end.

(** [desks[k]] *)
Definition desks_getitem (k : UUID) : M DeskRead :=
  d <- the_desks ;; getitem d k.

(** [desks[k] = v] *)
Definition desks_setitem (k : UUID) (v : DeskRead) : M unit :=
  fun w => (Ok tt, with_desks w (PyDict.set k v (desks w))).

(** [del desks[k]] *)
Definition desks_delitem (k : UUID) : M unit :=
  fun w => (Ok tt, with_desks w (PyDict.del k (desks w))).

Definition classrooms_getitem (k : UUID) : M ClassroomRead :=
  c <- the_classrooms ;; getitem c k.

Definition classrooms_setitem (k : UUID) (v : ClassroomRead) : M unit :=
  fun w => (Ok tt, with_classrooms w (PyDict.set k v (classrooms w))).

Definition classrooms_delitem (k : UUID) : M unit :=
  fun w => (Ok tt, with_classrooms w (PyDict.del k (classrooms w))).

(** ** [model_dump] *)

(** [None] or a string *)
Definition dump_opt_str (o : option string) : PyVal :=
  match o with Some s => VStr s | None => VNone end.

(** [DeskBase.model_dump()] (also [DeskCreate]) *)
Definition DeskBase_dump (d : DeskBase) : Dict :=
  [("id", VUuid (db_id d));
   ("label", VStr (db_label d));
   ("hand_config", VStr (db_hand_config d))].

(** [DeskBase.model_dump(exclude_unset=True)]: a generated [id] is left out *)
Definition DeskBase_dump_set (d : DeskBase) : Dict :=
  (if db_id_set d then [("id", VUuid (db_id d))] else [])
  ++ [("label", VStr (db_label d));
      ("hand_config", VStr (db_hand_config d))].

(** [DeskUpdate.model_dump(exclude_unset=True)] *)
Definition DeskUpdate_dump_set (u : DeskUpdate) : Dict :=
  (match du_label u with
   | Some v => [("label", dump_opt_str v)]
   | None => []
   end)
  ++ (match du_hand_config u with
      | Some v => [("hand_config", dump_opt_str v)]
      | None => []
      end).

(** [DeskRead.model_dump()] *)
Definition DeskRead_dump (r : DeskRead) : Dict :=
  [("id", VUuid (dr_id r));
   ("label", VStr (dr_label r));
   ("hand_config", VStr (dr_hand_config r));
   ("created_at", VTime (dr_created_at r));
   ("updated_at", VTime (dr_updated_at r))].

(** A list of embedded desks, dumped in full or without the unset fields. *)
Definition dump_desks (l : list DeskBase) : PyVal :=
  VList (map (fun d => VDict (DeskBase_dump d)) l).

Definition dump_desks_set (l : list DeskBase) : PyVal :=
  VList (map (fun d => VDict (DeskBase_dump_set d)) l).

(** [ClassroomBase.model_dump()] (also [ClassroomCreate]) *)
Definition ClassroomBase_dump (c : ClassroomBase) : Dict :=
  [("id", VUuid (cb_id c));
   ("room_no", VStr (cb_room_no c));
   ("building", VStr (cb_building c));
   ("university", dump_opt_str (cb_university c));
   ("desks", dump_desks (cb_desks c))].

(** [ClassroomUpdate.model_dump(exclude_unset=True)]; the flag reaches the
    embedded desks too *)
Definition ClassroomUpdate_dump_set (u : ClassroomUpdate) : Dict :=
  (match cu_room_no u with
   | Some v => [("room_no", dump_opt_str v)]
   | None => []
   end)
  ++ (match cu_building u with
      | Some v => [("building", dump_opt_str v)]
      | None => []
      end)
  ++ (match cu_university u with
      | Some v => [("university", dump_opt_str v)]
      | None => []
      end)
  ++ (match cu_desks u with
      | Some (Some l) => [("desks", dump_desks_set l)]
      | Some None => [("desks", VNone)]
      | None => []
      end).

(** [ClassroomRead.model_dump()] *)
Definition ClassroomRead_dump (r : ClassroomRead) : Dict :=
  [("id", VUuid (cr_id r));
   ("room_no", VStr (cr_room_no r));
   ("building", VStr (cr_building r));
   ("university", dump_opt_str (cr_university r));
   ("desks", dump_desks (cr_desks r));
   ("created_at", VTime (cr_created_at r));
   ("updated_at", VTime (cr_updated_at r))].

(** ** A parser of identifiers for the examples

    Thirty-two hexadecimal digits, hyphens skipped. *)
Definition hex_digit (c : ascii) : option N :=
  let n := N_of_ascii c in
  if ((48 <=? n) && (n <=? 57))%N then Some (n - 48)%N
  else if ((97 <=? n) && (n <=? 102))%N then Some (n - 87)%N
  else if ((65 <=? n) && (n <=? 70))%N then Some (n - 55)%N
  else None.

Fixpoint hex_acc (s : string) (acc : N) (digits : nat) : option UUID :=
  match s with
  | EmptyString => if Nat.eqb digits 32 then Some acc else None
  | String c r =>
      if Ascii.eqb c "-"%char then hex_acc r acc digits
      else match hex_digit c with
           | Some h => hex_acc r (16 * acc + h)%N (S digits)
           | None => None
           end
  end.

Definition hex_uuid (s : string) : option UUID := hex_acc s 0%N 0%nat.

(** ** Validation: what a model class does with its keyword arguments *)

Section Service.

(** Pydantic's reading of a string as a [UUID]. *)
Variable uuid_of_str : string -> option UUID.

(** *** Field types *)

(** [str] *)
Definition as_str (v : PyVal) : option string :=
  match v with VStr s => Some s | _ => None end.

(** [Optional[str]] *)
Definition as_opt_str (v : PyVal) : option (option string) :=
  match v with
  | VNone => Some None
  | VStr s => Some (Some s)
  | _ => None
  end.

(** [UUID]: an instance, or a string in the format of one *)
Definition as_uuid (v : PyVal) : option UUID :=
  match v with
  | VUuid u => Some u
  | VStr s => uuid_of_str s
  | _ => None
  end.

(** [DeskConfig] *)
Definition as_desk_config (v : PyVal) : option string :=
  match v with
  | VStr s => if DeskConfig_ok s then Some s else None
  | _ => None
  end.

(** [datetime]: the handlers only ever pass [datetime] objects here *)
Definition as_datetime (v : PyVal) : option datetime :=
  match v with VTime t => Some t | _ => None end.

(** Validation visits every field even after one has failed, so it returns
    an [option] next to the world its default factories have advanced. *)
Definition V (A : Type) : Type := World -> option A * World.

(** A required field: [Field(...)] *)
Definition required {A} (conv : PyVal -> option A) (kw : Dict) (name : string)
  : option A :=
  match PyDict.get name kw with
  | Some v => conv v
  | None => None
  end.

(** A field with a default value: [Field(None)] *)
Definition defaulted {A} (conv : PyVal -> option A) (dflt : A) (kw : Dict)
    (name : string) : option A :=
  match PyDict.get name kw with
  | Some v => conv v
  | None => Some dflt
  end.

(** A field with [default_factory]: the factory runs only when the field is
    missing. *)
Definition with_factory {A} (conv : PyVal -> option A) (factory : M A)
    (kw : Dict) (name : string) : V A :=
  fun w =>
    match PyDict.get name kw with
    | Some v => (conv v, w)
    | None =>
        match factory w with
        | (Ok a, w') => (Some a, w')
        | (Raise _, w') => (None, w')
        end
    end.

(** A field of an update model: unset when missing, otherwise converted. *)
Definition settable {A} (conv : PyVal -> option A) (kw : Dict) (name : string)
  : option (option A) :=
  match PyDict.get name kw with
  | Some v => match conv v with Some a => Some (Some a) | None => None end
  | None => Some None
  end.

(** *** [DeskBase], [DeskCreate] called with keyword arguments [kw] *)
Definition DeskBase_validate (kw : Dict) : V DeskBase :=
  fun w =>
    let '(id, w1) := with_factory as_uuid uuid4 kw "id" w in
    let label := required as_str kw "label" in
    let hand_config := required as_desk_config kw "hand_config" in
    (match id, label, hand_config with
     | Some i, Some l, Some h =>
         Some {| db_id := i; db_label := l; db_hand_config := h;
                 db_id_set := PyDict.mem "id" kw |}
     | _, _, _ => None
     end, w1).

(** *** [DeskUpdate] called with [kw] *)
Definition DeskUpdate_validate (kw : Dict) : V DeskUpdate :=
  fun w =>
    let label := settable as_opt_str kw "label" in
    let hand_config := settable as_opt_str kw "hand_config" in
    (match label, hand_config with
     | Some l, Some h => Some {| du_label := l; du_hand_config := h |}
     | _, _ => None
     end, w).

(** *** [DeskRead] called with [kw] *)
Definition DeskRead_validate (kw : Dict) : V DeskRead :=
  fun w =>
    let '(id, w1) := with_factory as_uuid uuid4 kw "id" w in
    let label := required as_str kw "label" in
    let hand_config := required as_desk_config kw "hand_config" in
    let '(created_at, w2) := with_factory as_datetime utcnow kw "created_at" w1 in
    let '(updated_at, w3) := with_factory as_datetime utcnow kw "updated_at" w2 in
    (match id, label, hand_config, created_at, updated_at with
     | Some i, Some l, Some h, Some c, Some u =>
         Some {| dr_id := i; dr_label := l; dr_hand_config := h;
                 dr_created_at := c; dr_updated_at := u |}
     | _, _, _, _, _ => None
     end, w3).

(** *** [List[DeskBase]] *)
Fixpoint validate_each {A} (f : PyVal -> V A) (l : list PyVal) : V (list A) :=
  fun w =>
    match l with
    | [] => (Some [], w)
    | x :: r =>
        let '(a, w1) := f x w in
        let '(rs, w2) := validate_each f r w1 in
        (match a, rs with
         | Some a', Some rs' => Some (a' :: rs')
         | _, _ => None
         end, w2)
    end.

Definition as_desk (v : PyVal) : V DeskBase :=
  match v with
  | VDict kw => DeskBase_validate kw
  | _ => fun w => (None, w)
  end.

Definition as_desks (v : PyVal) : V (list DeskBase) :=
  match v with
  | VList l => validate_each as_desk l
  | _ => fun w => (None, w)
  end.

(** [Optional[List[DeskBase]]] *)
Definition as_opt_desks (v : PyVal) : V (option (list DeskBase)) :=
  match v with
  | VNone => fun w => (Some None, w)
  | _ => fun w =>
      match as_desks v w with
      | (Some l, w') => (Some (Some l), w')
      | (None, w') => (None, w')
      end
  end.

(** The [desks] field of a classroom: [default_factory=list] *)
Definition desks_field (kw : Dict) : V (list DeskBase) :=
  match PyDict.get "desks" kw with
  | Some v => as_desks v
  | None => fun w => (Some [], w)
  end.

(** *** [ClassroomBase], [ClassroomCreate] called with [kw] *)
Definition ClassroomBase_validate (kw : Dict) : V ClassroomBase :=
  fun w =>
    let '(id, w1) := with_factory as_uuid uuid4 kw "id" w in
    let room_no := required as_str kw "room_no" in
    let building := required as_str kw "building" in
    let university := defaulted as_opt_str None kw "university" in
    let '(ds, w2) := desks_field kw w1 in
    (match id, room_no, building, university, ds with
     | Some i, Some r, Some b, Some u, Some l =>
         Some {| cb_id := i; cb_room_no := r; cb_building := b;
                 cb_university := u; cb_desks := l |}
     | _, _, _, _, _ => None
     end, w2).

(** *** [ClassroomUpdate] called with [kw] *)
Definition ClassroomUpdate_validate (kw : Dict) : V ClassroomUpdate :=
  fun w =>
    let room_no := settable as_opt_str kw "room_no" in
    let building := settable as_opt_str kw "building" in
    let university := settable as_opt_str kw "university" in
    let '(ds, w1) :=
      match PyDict.get "desks" kw with
      | Some v =>
          match as_opt_desks v w with
          | (Some l, w') => (Some (Some l), w')
          | (None, w') => (None, w')
          end
      | None => (Some None, w)
      end in
    (match room_no, building, university, ds with
     | Some r, Some b, Some u, Some l =>
         Some {| cu_room_no := r; cu_building := b;
                 cu_university := u; cu_desks := l |}
     | _, _, _, _ => None
     end, w1).

(** *** [ClassroomRead] called with [kw] *)
Definition ClassroomRead_validate (kw : Dict) : V ClassroomRead :=
  fun w =>
    let '(id, w1) := with_factory as_uuid uuid4 kw "id" w in
    let room_no := required as_str kw "room_no" in
    let building := required as_str kw "building" in
    let university := defaulted as_opt_str None kw "university" in
    let '(ds, w2) := desks_field kw w1 in
    let '(created_at, w3) := with_factory as_datetime utcnow kw "created_at" w2 in
    let '(updated_at, w4) := with_factory as_datetime utcnow kw "updated_at" w3 in
    (match id, room_no, building, university, ds, created_at, updated_at with
     | Some i, Some r, Some b, Some u, Some l, Some c, Some m =>
         Some {| cr_id := i; cr_room_no := r; cr_building := b;
                 cr_university := u; cr_desks := l;
                 cr_created_at := c; cr_updated_at := m |}
     | _, _, _, _, _, _, _ => None
     end, w4).

(** Calling a model class inside a handler: a failed validation is a
    pydantic [ValidationError]. *)
Definition construct {A} (v : V A) : M A :=
  fun w =>
    match v w with
    | (Some a, w') => (Ok a, w')
    | (None, w') => (Raise ValidationError, w')
    end.

(** The framework validating a request body against the handler's declared
    model: a failure is answered with status 422 and the handler is not
    called. *)
Definition from_body {A} (validate : Dict -> V A) (body : PyVal) : M A :=
  fun w =>
    match body with
    | VDict kw =>
        match validate kw w with
        | (Some a, w') => (Ok a, w')
        | (None, w') => (Raise RequestValidationError, w')
        end
    | _ => (Raise RequestValidationError, w)
    end.

(** ** main.py: Desk endpoints *)

(** What a handler may hand back: an instance of either read model. *)
Inductive Model : Type :=
| MDeskRead (r : DeskRead)
| MClassroomRead (r : ClassroomRead).

(** [create_desk] *)
Definition create_desk (desk : DeskCreate) : M DeskRead :=
  ds <- the_desks ;;
  if PyDict.mem (db_id desk) ds then
    raise (HTTPException 400 "Desk with this ID already exists")
  else
    r <- construct (DeskRead_validate (DeskBase_dump desk)) ;;
    desks_setitem (db_id desk) r ;;;
    desks_getitem (db_id desk).

(** [list_desks] *)
Definition list_desks (label hand_config : option string) : M (list DeskRead) :=
  ds <- the_desks ;;
  let results := PyDict.values ds in
  let results :=
    match label with
    | Some l => filter (fun a => String.eqb (dr_label a) l) results
    | None => results
    end in
  let results :=
    match hand_config with
    | Some h => filter (fun a => String.eqb (dr_hand_config a) h) results
    | None => results
    end in
  ret results.

(** [get_desk] *)
Definition get_desk (desk_id : UUID) : M DeskRead :=
  ds <- the_desks ;;
  if negb (PyDict.mem desk_id ds) then
    raise (HTTPException 404 "Desk not found")
  else desks_getitem desk_id.

(** [update_desk] *)
Definition update_desk (desk_id : UUID) (update : DeskUpdate) : M DeskRead :=
  ds <- the_desks ;;
  if negb (PyDict.mem desk_id ds) then
    raise (HTTPException 404 "Desk not found")
  else
    cur <- desks_getitem desk_id ;;
    let stored := DeskRead_dump cur in
    let stored := PyDict.update stored (DeskUpdate_dump_set update) in
    r <- construct (DeskRead_validate stored) ;;
    desks_setitem desk_id r ;;;
    desks_getitem desk_id.

(** [replace_desk] *)
Definition replace_desk (desk_id : UUID) (desk : DeskCreate) : M DeskRead :=
  ds <- the_desks ;;
  if negb (PyDict.mem desk_id ds) then
    let new_desk_data := DeskBase_dump desk in
    let new_desk_data := PyDict.set "id" (VUuid desk_id) new_desk_data in
    d <- construct (DeskBase_validate new_desk_data) ;;
    create_desk d
  else
    stored <- desks_getitem desk_id ;;
    let new_data := DeskBase_dump desk in
    label <- getitem new_data "label" ;;
    hand_config <- getitem new_data "hand_config" ;;
    now <- utcnow ;;
    new_desk <- construct (DeskRead_validate
                  [("id", VUuid desk_id);
                   ("label", label);
                   ("hand_config", hand_config);
                   ("created_at", VTime (dr_created_at stored));
                   ("updated_at", VTime now)]) ;;
    desks_setitem desk_id new_desk ;;;
    ret new_desk.

(** [delete_desk] *)
Definition delete_desk (desk_id : UUID) : M Dict :=
  ds <- the_desks ;;
  if negb (PyDict.mem desk_id ds) then
    raise (HTTPException 404 "Desk not found")
  else
    desks_delitem desk_id ;;;
    ret [("confirmation", VStr "Desk deleted successfully")].

(** ** main.py: Classroom endpoints *)

(** [create_classroom] *)
Definition create_classroom (classroom : ClassroomCreate) : M ClassroomRead :=
  classroom_read <- construct (ClassroomRead_validate (ClassroomBase_dump classroom)) ;;
  classrooms_setitem (cr_id classroom_read) classroom_read ;;;
  ret classroom_read.

(** Attribute access on a [DeskRead] instance: its five fields, and
    [AttributeError] for any other name. *)
Definition DeskRead_getattr (p : DeskRead) (name : string) : Result PyVal :=
  match PyDict.get name (DeskRead_dump p) with
  | Some v => Ok v
  | None => Raise (AttributeError name)
  end.

(** Attribute access on a model held inside a value (the model is the
    dictionary of its fields). *)
Definition value_getattr (v : PyVal) (name : string) : Result PyVal :=
  match v with
  | VDict d =>
      match PyDict.get name d with
      | Some x => Ok x
      | None => Raise (AttributeError name)
      end
  | _ => Raise (AttributeError name)
  end.

(** [v == s] for a string [s] *)
Definition eq_str (v : PyVal) (s : string) : bool :=
  match v with VStr s' => String.eqb s' s | _ => false end.

(** A list comprehension with a condition that may raise. *)
Fixpoint py_filter {A} (f : A -> Result bool) (l : list A) : Result (list A) :=
  match l with
  | [] => Ok []
  | x :: r =>
      match f x with
      | Raise e => Raise e
      | Ok b =>
          match py_filter f r with
          | Raise e => Raise e
          | Ok r' => Ok (if b then x :: r' else r')
          end
      end
  end.

(** [any(...)] over a generator: stops at the first true element. *)
Fixpoint py_any {A} (f : A -> Result bool) (l : list A) : Result bool :=
  match l with
  | [] => Ok false
  | x :: r =>
      match f x with
      | Raise e => Raise e
      | Ok true => Ok true
      | Ok false => py_any f r
      end
  end.

(** [p.name == value] *)
Definition attr_is (name value : string) (p : DeskRead) : Result bool :=
  match DeskRead_getattr p name with
  | Raise e => Raise e
  | Ok v => Ok (eq_str v value)
  end.

(** [any(desk.name == value for desk in p.desks)] *)
Definition any_desk_is (name value : string) (p : DeskRead) : Result bool :=
  match DeskRead_getattr p "desks" with
  | Raise e => Raise e
  | Ok (VList l) =>
      py_any (fun desk =>
                match value_getattr desk name with
                | Raise e => Raise e
                | Ok v => Ok (eq_str v value)
                end) l
  | Ok _ => Raise TypeError
  end.

(** Lifting a pure result into the monad. *)
Definition lift {A} (r : Result A) : M A := fun w => (r, w).

(** [list_classrooms]: [results] starts from [desks.values()], as in the
    source. *)
Definition list_classrooms (room_no building university label hand_config : option string)
  : M (list DeskRead) :=
  ds <- the_desks ;;
  let results := PyDict.values ds in
  results <- match room_no with
             | Some v => lift (py_filter (attr_is "room_no" v) results)
             | None => ret results
             end ;;
  results <- match building with
             | Some v => lift (py_filter (attr_is "building" v) results)
             | None => ret results
             end ;;
  results <- match university with
             | Some v => lift (py_filter (attr_is "university" v) results)
             | None => ret results
             end ;;
  results <- match label with
             | Some v => lift (py_filter (any_desk_is "label" v) results)
             | None => ret results
             end ;;
  results <- match hand_config with
             | Some v => lift (py_filter (any_desk_is "hand_config" v) results)
             | None => ret results
             end ;;
  ret results.

(** [get_classrooom] *)
Definition get_classrooom (classroom_id : UUID) : M ClassroomRead :=
  cs <- the_classrooms ;;
  if negb (PyDict.mem classroom_id cs) then
    raise (HTTPException 404 "Classroom not found")
  else classrooms_getitem classroom_id.

(** [update_classroom] *)
Definition update_classroom (classroom_id : UUID) (update : ClassroomUpdate)
  : M ClassroomRead :=
  cs <- the_classrooms ;;
  if negb (PyDict.mem classroom_id cs) then
    raise (HTTPException 404 "Classroom not found")
  else
    cur <- classrooms_getitem classroom_id ;;
    let stored := ClassroomRead_dump cur in
    let stored := PyDict.update stored (ClassroomUpdate_dump_set update) in
    r <- construct (ClassroomRead_validate stored) ;;
    classrooms_setitem classroom_id r ;;;
    classrooms_getitem classroom_id.

(** [replace_classroom]: on a missing id the source builds a [DeskCreate]
    from the classroom's fields and calls [create_desk]. *)
Definition replace_classroom (classroom_id : UUID) (classroom : ClassroomCreate)
  : M Model :=
  cs <- the_classrooms ;;
  if negb (PyDict.mem classroom_id cs) then
    let new_classroom_data := ClassroomBase_dump classroom in
    let new_classroom_data := PyDict.set "id" (VUuid classroom_id) new_classroom_data in
    d <- construct (DeskBase_validate new_classroom_data) ;;
    r <- create_desk d ;;
    ret (MDeskRead r)
  else
    stored <- classrooms_getitem classroom_id ;;
    let new_data := ClassroomBase_dump classroom in
    room_no <- getitem new_data "room_no" ;;
    building <- getitem new_data "building" ;;
    university <- getitem new_data "university" ;;
    ds <- getitem new_data "desks" ;;
    now <- utcnow ;;
    new_classroom <- construct (ClassroomRead_validate
                       [("id", VUuid classroom_id);
                        ("room_no", room_no);
                        ("building", building);
                        ("university", university);
                        ("desks", ds);
                        ("created_at", VTime (cr_created_at stored));
                        ("updated_at", VTime now)]) ;;
    classrooms_setitem classroom_id new_classroom ;;;
    ret (MClassroomRead new_classroom).

(** [delete_classroom] *)
Definition delete_classroom (classroom_id : UUID) : M Dict :=
  cs <- the_classrooms ;;
  if negb (PyDict.mem classroom_id cs) then
    raise (HTTPException 404 "Classroom not found")
  else
    classrooms_delitem classroom_id ;;;
    ret [("confirmation", VStr "Classroom deleted successfully")].

(** ** The routes: body validation, then the handler *)

(** [POST /desks] *)
Definition post_desks (body : PyVal) : M DeskRead :=
  desk <- from_body DeskBase_validate body ;; create_desk desk.

(** [PATCH /desks/{desk_id}] *)
Definition patch_desk (desk_id : UUID) (body : PyVal) : M DeskRead :=
  update <- from_body DeskUpdate_validate body ;; update_desk desk_id update.

(** [PUT /desks/{desk_id}] *)
Definition put_desk (desk_id : UUID) (body : PyVal) : M DeskRead :=
  desk <- from_body DeskBase_validate body ;; replace_desk desk_id desk.

(** [POST /classrooms] *)
Definition post_classrooms (body : PyVal) : M ClassroomRead :=
  classroom <- from_body ClassroomBase_validate body ;; create_classroom classroom.

(** [PATCH /classrooms/{classroom_id}] *)
Definition patch_classroom (classroom_id : UUID) (body : PyVal) : M ClassroomRead :=
  update <- from_body ClassroomUpdate_validate body ;;
  update_classroom classroom_id update.

(** [PUT /classrooms/{classroom_id}] *)
Definition put_classroom (classroom_id : UUID) (body : PyVal) : M Model :=
  classroom <- from_body ClassroomBase_validate body ;;
  replace_classroom classroom_id classroom.

(** ** Histories of requests *)

Inductive Request : Type :=
| CreateDesk (desk : DeskCreate)
| ListDesks (label hand_config : option string)
| GetDesk (desk_id : UUID)
| UpdateDesk (desk_id : UUID) (update : DeskUpdate)
| ReplaceDesk (desk_id : UUID) (desk : DeskCreate)
| DeleteDesk (desk_id : UUID)
| CreateClassroom (classroom : ClassroomCreate)
| ListClassrooms (room_no building university label hand_config : option string)
| GetClassroom (classroom_id : UUID)
| UpdateClassroom (classroom_id : UUID) (update : ClassroomUpdate)
| ReplaceClassroom (classroom_id : UUID) (classroom : ClassroomCreate)
| DeleteClassroom (classroom_id : UUID)
| GetHealth.

(** The world a computation leaves behind, whatever it answers. *)
Definition after {A} (m : M A) (w : World) : World := snd (m w).

(** One request.  [make_health] reads the clock once and touches neither
    store; its payload is left out. *)
Definition step (w : World) (r : Request) : World :=
  match r with
  | CreateDesk d => after (create_desk d) w
  | ListDesks l h => after (list_desks l h) w
  | GetDesk i => after (get_desk i) w
  | UpdateDesk i u => after (update_desk i u) w
  | ReplaceDesk i d => after (replace_desk i d) w
  | DeleteDesk i => after (delete_desk i) w
  | CreateClassroom c => after (create_classroom c) w
  | ListClassrooms r b u l h => after (list_classrooms r b u l h) w
  | GetClassroom i => after (get_classrooom i) w
  | UpdateClassroom i u => after (update_classroom i u) w
  | ReplaceClassroom i c => after (replace_classroom i c) w
  | DeleteClassroom i => after (delete_classroom i) w
  | GetHealth => after utcnow w
  end.

Definition run (w : World) (rs : list Request) : World := fold_left step rs w.

(** A history of desk creations, each of which has to succeed. *)
Fixpoint create_all (l : list DeskCreate) : M (list DeskRead) :=
  match l with
  | [] => ret []
  | d :: r =>
      x <- create_desk d ;;
      xs <- create_all r ;;
      ret (x :: xs)
  end.

(** The requests served by the classroom handlers, and those served by the
    desk handlers. *)
Definition is_classroom_request (r : Request) : bool :=
  match r with
  | CreateClassroom _ | ListClassrooms _ _ _ _ _ | GetClassroom _
  | UpdateClassroom _ _ | ReplaceClassroom _ _ | DeleteClassroom _ => true
  | _ => false
  end.

Definition is_desk_request (r : Request) : bool :=
  match r with
  | CreateDesk _ | ListDesks _ _ | GetDesk _
  | UpdateDesk _ _ | ReplaceDesk _ _ | DeleteDesk _ => true
  | _ => false
  end.

(** ** Predicates used in the statements *)

(** What body validation guarantees of a [DeskCreate] and of a
    [ClassroomCreate] before a handler sees them. *)
Definition DeskCreate_ok (d : DeskBase) : bool := DeskConfig_ok (db_hand_config d).

Definition ClassroomCreate_ok (c : ClassroomBase) : bool :=
  forallb DeskCreate_ok (cb_desks c).

(** An embedded desk after it went through a full dump and the model class
    again: its [id] now counts as supplied. *)
Definition supplied (d : DeskBase) : DeskBase :=
  {| db_id := db_id d; db_label := db_label d;
     db_hand_config := db_hand_config d; db_id_set := true |}.

(** The clock never runs backwards. *)
Definition clock_monotone (w : World) : Prop :=
  forall i j : nat, (i <= j)%nat -> clock w i <= clock w j.

(** Every stored record was updated no earlier than it was created. *)
Definition stamps_ordered (w : World) : Prop :=
  Forall (fun kv => dr_created_at (snd kv) <= dr_updated_at (snd kv)) (desks w)
  /\ Forall (fun kv => cr_created_at (snd kv) <= cr_updated_at (snd kv)) (classrooms w).

(** The same, together with what keeps it true: no record was created
    later than the next reading of the clock. *)
Definition stamps_inv (w : World) : Prop :=
  clock_monotone w
  /\ Forall (fun kv => dr_created_at (snd kv) <= dr_updated_at (snd kv)
                       /\ dr_created_at (snd kv) <= clock w (ticks w)) (desks w)
  /\ Forall (fun kv => cr_created_at (snd kv) <= cr_updated_at (snd kv)
                       /\ cr_created_at (snd kv) <= clock w (ticks w)) (classrooms w).

(** What [update_desk] stores for a record [cur] and a patch [u], when the
    merged fields validate. *)
Definition patched_str (cur : string) (p : option (option string)) : option string :=
  match p with
  | None => Some cur
  | Some (Some s) => Some s
  | Some None => None
  end.

Definition patched_desk (cur : DeskRead) (u : DeskUpdate) : option DeskRead :=
  match patched_str (dr_label cur) (du_label u),
        patched_str (dr_hand_config cur) (du_hand_config u) with
  | Some l, Some h =>
      if DeskConfig_ok h then
        Some {| dr_id := dr_id cur; dr_label := l; dr_hand_config := h;
                dr_created_at := dr_created_at cur;
                dr_updated_at := dr_updated_at cur |}
      else None
  | _, _ => None
  end.

(** The classroom listing as the specification words it: the classrooms
    store, filtered on the classroom's own fields and on its embedded
    desks, all supplied filters together. *)
Definition wanted (filter : option string) (holds : string -> bool) : bool :=
  match filter with Some v => holds v | None => true end.

Definition spec_list_classrooms
    (room_no building university label hand_config : option string)
    (w : World) : list ClassroomRead :=
  filter
    (fun c =>
       wanted room_no (String.eqb (cr_room_no c))
       && wanted building (String.eqb (cr_building c))
       && wanted university
            (fun v => match cr_university c with
                      | Some u => String.eqb u v
                      | None => false
                      end)
       && wanted label
            (fun v => existsb (fun d => String.eqb (db_label d) v) (cr_desks c))
       && wanted hand_config
            (fun v => existsb (fun d => String.eqb (db_hand_config d) v) (cr_desks c)))
    (PyDict.values (classrooms w)).

(** No key occurs twice in either store: the association lists are
    dictionaries. *)
Definition keys_unique (w : World) : Prop :=
  NoDup (PyDict.keys (desks w)) /\ NoDup (PyDict.keys (classrooms w)).

(** [w'] differs from [w] at most in how many identifiers were drawn. *)
Definition only_draws (w w' : World) : Prop :=
  classrooms w' = classrooms w /\ desks w' = desks w
  /\ clock w' = clock w /\ ticks w' = ticks w.

(** ** Predicates for the further properties *)

(** Whether a computation raises in a world. *)
Definition raises {A} (m : M A) (w : World) : bool :=
  match fst (m w) with Ok _ => false | Raise _ => true end.

(** Whether the handler of a request raises. *)
Definition request_fails (w : World) (r : Request) : bool :=
  match r with
  | CreateDesk d => raises (create_desk d) w
  | ListDesks l h => raises (list_desks l h) w
  | GetDesk i => raises (get_desk i) w
  | UpdateDesk i u => raises (update_desk i u) w
  | ReplaceDesk i d => raises (replace_desk i d) w
  | DeleteDesk i => raises (delete_desk i) w
  | CreateClassroom c => raises (create_classroom c) w
  | ListClassrooms r b u l h => raises (list_classrooms r b u l h) w
  | GetClassroom i => raises (get_classrooom i) w
  | UpdateClassroom i u => raises (update_classroom i u) w
  | ReplaceClassroom i c => raises (replace_classroom i c) w
  | DeleteClassroom i => raises (delete_classroom i) w
  | GetHealth => false
  end.

(** The requests served by the two [list] and the two [get] handlers. *)
Definition is_read_request (r : Request) : bool :=
  match r with
  | ListDesks _ _ | GetDesk _ | ListClassrooms _ _ _ _ _ | GetClassroom _ => true
  | _ => false
  end.

(** Every stored desk, and every desk embedded in a stored classroom, has a
    [hand_config] that matches the pattern. *)
Definition configs_valid (w : World) : Prop :=
  Forall (fun kv => DeskConfig_ok (dr_hand_config (snd kv)) = true) (desks w)
  /\ Forall (fun kv => forallb DeskCreate_ok (cr_desks (snd kv)) = true)
            (classrooms w).

(** Every record is stored under its own [id]. *)
Definition ids_agree (w : World) : Prop :=
  Forall (fun kv => dr_id (snd kv) = fst kv) (desks w)
  /\ Forall (fun kv => cr_id (snd kv) = fst kv) (classrooms w).

(** The value of an optional argument, or a default. *)
Definition or_else {A} (o : option A) (dflt : A) : A :=
  match o with Some a => a | None => dflt end.

(** A [DeskUpdate] that supplies strings for some of its fields and leaves
    the others unset. *)
Definition desk_patch (label hand_config : option string) : DeskUpdate :=
  {| du_label := option_map Some label;
     du_hand_config := option_map Some hand_config |}.

(** A [ClassroomUpdate] that supplies strings for [room_no] and [building],
    a string or [None] for [university], or leaves them unset, and says
    nothing of the desks. *)
Definition classroom_patch (room_no building : option string)
    (university : option (option string)) : ClassroomUpdate :=
  {| cu_room_no := option_map Some room_no;
     cu_building := option_map Some building;
     cu_university := university;
     cu_desks := None |}.

(** A [ClassroomUpdate] that supplies the list of desks and nothing else. *)
Definition desks_patch (l : list DeskBase) : ClassroomUpdate :=
  {| cu_room_no := None; cu_building := None;
     cu_university := None; cu_desks := Some (Some l) |}.

(** The test [list_desks] applies to a record. *)
Definition desk_wanted (label hand_config : option string) (a : DeskRead) : bool :=
  wanted label (String.eqb (dr_label a))
  && wanted hand_config (String.eqb (dr_hand_config a)).

(** ** Sample data *)

Definition tick_clock : nat -> datetime := fun n => 1000 + Z.of_nat n.
Definition count_uuid : nat -> UUID := fun n => (500 + N.of_nat n)%N.

Definition fresh_world : World :=
  {| classrooms := []; desks := [];
     clock := tick_clock; ticks := 0;
     uuid_src := count_uuid; uuid_draws := 0 |}.

Definition desk_12H : DeskCreate :=
  {| db_id := 1%N; db_label := "12H"; db_hand_config := "Right"; db_id_set := true |}.

Definition desk_14G : DeskCreate :=
  {| db_id := 2%N; db_label := "14G"; db_hand_config := "Left"; db_id_set := true |}.

Definition desk_body_12J : DeskCreate :=
  {| db_id := 9%N; db_label := "12J"; db_hand_config := "Left"; db_id_set := true |}.

Definition read_12H : DeskRead :=
  {| dr_id := 1%N; dr_label := "12H"; dr_hand_config := "Right";
     dr_created_at := 1000; dr_updated_at := 1001 |}.

Definition read_14G : DeskRead :=
  {| dr_id := 2%N; dr_label := "14G"; dr_hand_config := "Left";
     dr_created_at := 1002; dr_updated_at := 1003 |}.

Definition empty_patch : DeskUpdate :=
  {| du_label := None; du_hand_config := None |}.

Definition label_patch : DeskUpdate :=
  {| du_label := Some (Some "12J"); du_hand_config := None |}.

Definition classroom_502 : ClassroomCreate :=
  {| cb_id := 7%N; cb_room_no := "502";
     cb_building := "Northwest Corner Building";
     cb_university := Some "Columbia University";
     cb_desks := [desk_12H] |}.

Definition classroom_417 : ClassroomCreate :=
  {| cb_id := 7%N; cb_room_no := "417";
     cb_building := "International Affairs Building";
     cb_university := None;
     cb_desks := [desk_14G] |}.

Definition read_502 : ClassroomRead :=
  {| cr_id := 7%N; cr_room_no := "502";
     cr_building := "Northwest Corner Building";
     cr_university := Some "Columbia University";
     cr_desks := [desk_12H];
     cr_created_at := 1000; cr_updated_at := 1001 |}.

(** One desk stored, created at the first two readings of the clock. *)
Definition one_desk_world : World :=
  {| classrooms := []; desks := [(1%N, read_12H)];
     clock := tick_clock; ticks := 2;
     uuid_src := count_uuid; uuid_draws := 0 |}.

(** A second desk created after it. *)
Definition two_desks_world : World :=
  {| classrooms := []; desks := [(1%N, read_12H); (2%N, read_14G)];
     clock := tick_clock; ticks := 4;
     uuid_src := count_uuid; uuid_draws := 0 |}.

(** One classroom stored, the desks store empty. *)
Definition one_classroom_world : World :=
  {| classrooms := [(7%N, read_502)]; desks := [];
     clock := tick_clock; ticks := 2;
     uuid_src := count_uuid; uuid_draws := 0 |}.

(** The same world, but for a desk in the desks store. *)
Definition classroom_and_desk_world : World :=
  with_desks one_classroom_world [(1%N, read_12H)].

Definition empty_classroom_patch : ClassroomUpdate :=
  {| cu_room_no := None; cu_building := None;
     cu_university := None; cu_desks := None |}.

(** The body [{"hand_config": "Up"}] of a request. *)
Definition body_hand_config_up : PyVal := VDict [("hand_config", VStr "Up")].

Definition sample_history : list Request :=
  [CreateDesk desk_12H;
   UpdateDesk 1%N label_patch;
   ReplaceDesk 1%N desk_body_12J;
   CreateClassroom classroom_502;
   ReplaceClassroom 7%N classroom_417;
   DeleteDesk 1%N].

(** More sample data, for the further properties. *)
Definition read_12J : DeskRead :=
  {| dr_id := 1%N; dr_label := "12J"; dr_hand_config := "Right";
     dr_created_at := 1000; dr_updated_at := 1001 |}.

Definition patch_null_label : DeskUpdate :=
  {| du_label := Some None; du_hand_config := None |}.

(** A desk body without an id. *)
Definition kw_no_id : Dict :=
  [("label", VStr "14G"); ("hand_config", VStr "Left")].

Definition read_500 : DeskRead :=
  {| dr_id := 500%N; dr_label := "14G"; dr_hand_config := "Left";
     dr_created_at := 1000; dr_updated_at := 1001 |}.

(** A desk body that tries to set the timestamps. *)
Definition kw_with_stamps : Dict :=
  [("id", VUuid 3%N); ("label", VStr "3C"); ("hand_config", VStr "Left");
   ("created_at", VTime 5); ("updated_at", VTime 6)].

Definition read_3C : DeskRead :=
  {| dr_id := 3%N; dr_label := "3C"; dr_hand_config := "Left";
     dr_created_at := 1000; dr_updated_at := 1001 |}.

(** A patch body that tries to set the id and the creation time. *)
Definition body_patch_with_stamps : PyVal :=
  VDict [("label", VStr "12J"); ("id", VUuid 8%N); ("created_at", VTime 5)].

(** A desk body with a hand configuration outside the pattern, and a
    classroom body that embeds it. *)
Definition kw_bad_desk : Dict :=
  [("label", VStr "9Z"); ("hand_config", VStr "Up")].

Definition kw_bad_classroom : Dict :=
  [("room_no", VStr "502"); ("building", VStr "Mudd");
   ("desks", VList [VDict kw_no_id; VDict kw_bad_desk])].

Definition desk_2B : DeskCreate :=
  {| db_id := 2%N; db_label := "2B"; db_hand_config := "Right";
     db_id_set := true |}.

(** An embedded desk whose id was generated, not supplied. *)
Definition desk_4A_generated : DeskBase :=
  {| db_id := 0%N; db_label := "4A"; db_hand_config := "Left";
     db_id_set := false |}.

Definition classroom_patch_null_room : ClassroomUpdate :=
  {| cu_room_no := Some None; cu_building := None;
     cu_university := None; cu_desks := None |}.

Definition two_creations : list Request :=
  [CreateDesk desk_12H; CreateDesk desk_14G].

(** A clock that runs backwards, one microsecond per reading. *)
Definition backward_clock : nat -> datetime := fun n => 1000 - Z.of_nat n.

Definition backward_world : World :=
  {| classrooms := []; desks := [];
     clock := backward_clock; ticks := 0;
     uuid_src := count_uuid; uuid_draws := 0 |}.

(** * Facts about dictionaries *)

Section DictFacts.
Context {K V : Type} `{EqKey K}.
Implicit Types (k : K) (v : V) (d e : list (K * V)).

Lemma keqb_refl k : keqb k k = true.
Proof. destruct (keqb_spec k k); congruence. Qed.

Lemma keqb_neq k k' : k <> k' -> keqb k k' = false.
Proof. intros Hne. destruct (keqb_spec k k'); congruence. Qed.

Lemma get_set_same k v d : PyDict.get k (PyDict.set k v d) = Some v.
Proof.
  induction d as [|[k' v'] d IH]; simpl.
  - now rewrite keqb_refl.
  - destruct (keqb k k') eqn:E; simpl; rewrite E; auto.
Qed.

Lemma get_set_other k k' v d :
  k <> k' -> PyDict.get k (PyDict.set k' v d) = PyDict.get k d.
Proof.
  intros Hne. induction d as [|[k0 v0] d IH]; simpl.
  - now rewrite keqb_neq.
  - destruct (keqb_spec k' k0) as [->|Hk]; simpl.
    + now rewrite keqb_neq.
    + now rewrite IH.
Qed.

Lemma mem_set_same k v d : PyDict.mem k (PyDict.set k v d) = true.
Proof. unfold PyDict.mem. now rewrite get_set_same. Qed.

Lemma get_del_same k d :
  NoDup (PyDict.keys d) -> PyDict.get k (PyDict.del k d) = None.
Proof.
  induction d as [|[k' v'] d IH]; simpl; intros Hnd; auto.
  inversion Hnd as [|? ? Hnotin Hnd']; subst.
  destruct (keqb_spec k k') as [->|Hk]; simpl.
  - clear IH Hnd Hnd'. induction d as [|[k0 v0] d IH]; simpl in *; auto.
    destruct (keqb_spec k' k0) as [->|Hk]; [tauto|]. apply IH. tauto.
  - rewrite keqb_neq by assumption. auto.
Qed.

(** Assigning to a key that is not there appends it. *)
Lemma set_absent k v d :
  PyDict.mem k d = false -> PyDict.set k v d = d ++ [(k, v)].
Proof.
  unfold PyDict.mem. induction d as [|[k' v'] d IH]; simpl; auto.
  destruct (keqb k k'); [discriminate|].
  intros Hm. now rewrite IH.
Qed.

Lemma mem_false_not_in k d :
  PyDict.mem k d = false -> ~ In k (PyDict.keys d).
Proof.
  unfold PyDict.mem. induction d as [|[k' v'] d IH]; simpl; auto.
  destruct (keqb_spec k k') as [->|Hk]; [discriminate|].
  intros Hm [Heq|Hin]; [congruence|]. now apply IH.
Qed.

Lemma keys_set_present k v d :
  PyDict.mem k d = true -> PyDict.keys (PyDict.set k v d) = PyDict.keys d.
Proof.
  unfold PyDict.mem. induction d as [|[k' v'] d IH]; simpl; [discriminate|].
  destruct (keqb k k') eqn:E; simpl; auto.
  intros Hm. now rewrite IH.
Qed.

(** Assignment and deletion keep the keys distinct. *)
Lemma NoDup_set k v d :
  NoDup (PyDict.keys d) -> NoDup (PyDict.keys (PyDict.set k v d)).
Proof.
  intros Hnd. destruct (PyDict.mem k d) eqn:Hmem.
  - now rewrite keys_set_present.
  - rewrite set_absent by exact Hmem. unfold PyDict.keys. rewrite map_app.
    apply NoDup_app; [exact Hnd | repeat constructor; auto |].
    intros x Hx [<-|[]]. exact (mem_false_not_in _ _ Hmem Hx).
Qed.

Lemma In_keys_del k x d :
  In x (PyDict.keys (PyDict.del k d)) -> In x (PyDict.keys d).
Proof.
  induction d as [|[k' v'] d IH]; simpl; auto.
  destruct (keqb k k'); simpl; tauto.
Qed.

Lemma NoDup_del k d :
  NoDup (PyDict.keys d) -> NoDup (PyDict.keys (PyDict.del k d)).
Proof.
  induction d as [|[k' v'] d IH]; simpl; auto.
  intros Hnd. inversion Hnd as [|? ? Hnotin Hnd']; subst.
  destruct (keqb k k'); simpl; auto.
  constructor; auto. intros Hin. apply Hnotin. exact (In_keys_del _ _ _ Hin).
Qed.

(** A property of the stored values survives assignment and deletion. *)
Lemma Forall_set (P : V -> Prop) k v d :
  Forall (fun kv => P (snd kv)) d -> P v ->
  Forall (fun kv => P (snd kv)) (PyDict.set k v d).
Proof.
  intros Hd Hv. induction Hd as [|[k' v'] d Hx Hd IH]; simpl.
  - constructor; auto.
  - destruct (keqb k k'); constructor; auto.
Qed.

Lemma Forall_del (P : K * V -> Prop) k d :
  Forall P d -> Forall P (PyDict.del k d).
Proof.
  intros Hd. induction Hd as [|[k' v'] d Hx Hd IH]; simpl; auto.
  destruct (keqb k k'); auto.
Qed.

Lemma get_In k v d : PyDict.get k d = Some v -> exists k', In (k', v) d.
Proof.
  induction d as [|[k' v'] d IH]; simpl; [discriminate|].
  destruct (keqb k k').
  - intros [= ->]. eauto.
  - intros Hg. destruct (IH Hg) as [k0 Hin]. eauto.
Qed.

(** [update] leaves alone the keys its argument does not mention. *)
Lemma get_update_absent k e : forall d,
  PyDict.mem k e = false -> PyDict.get k (PyDict.update d e) = PyDict.get k d.
Proof.
  unfold PyDict.update, PyDict.mem.
  induction e as [|[k' v'] e IH]; simpl; intros d Hm; auto.
  destruct (keqb_spec k k') as [->|Hk]; [discriminate|].
  rewrite IH by assumption. now apply get_set_other.
Qed.
End DictFacts.

(** * The desk handlers, equation by equation *)

(** A [DeskRead] built from the dump of a [DeskCreate]: both timestamps
    come from their default factories, one reading of the clock each. *)
Lemma DeskRead_validate_dump (d : DeskBase) (w : World) :
  DeskRead_validate (DeskBase_dump d) w =
  (if DeskConfig_ok (db_hand_config d) then
     Some {| dr_id := db_id d; dr_label := db_label d;
             dr_hand_config := db_hand_config d;
             dr_created_at := clock w (ticks w);
             dr_updated_at := clock w (S (ticks w)) |}
   else None,
   with_ticks w (S (S (ticks w)))).
Proof.
  unfold DeskRead_validate, DeskBase_dump. cbn.
  destruct (DeskConfig_ok (db_hand_config d)); reflexivity.
Qed.

(** [create_desk], case by case. *)
Lemma create_desk_eq (desk : DeskCreate) (w : World) :
  create_desk desk w =
  if PyDict.mem (db_id desk) (desks w) then
    (Raise (HTTPException 400 "Desk with this ID already exists"), w)
  else if DeskConfig_ok (db_hand_config desk) then
    let r := {| dr_id := db_id desk; dr_label := db_label desk;
                dr_hand_config := db_hand_config desk;
                dr_created_at := clock w (ticks w);
                dr_updated_at := clock w (S (ticks w)) |} in
    (Ok r, with_ticks (with_desks w (PyDict.set (db_id desk) r (desks w)))
                      (S (S (ticks w))))
  else (Raise ValidationError, with_ticks w (S (S (ticks w)))).
Proof.
  unfold create_desk, bind, the_desks, construct.
  destruct (PyDict.mem (db_id desk) (desks w)); [reflexivity|].
  rewrite DeskRead_validate_dump.
  destruct (DeskConfig_ok (db_hand_config desk)); [|reflexivity].
  unfold desks_setitem, desks_getitem, bind, the_desks, getitem. cbn.
  rewrite get_set_same. reflexivity.
Qed.

(** [update_desk]: the stored record with the patch merged in, both
    timestamps as they were. *)
Lemma update_desk_eq (desk_id : UUID) (u : DeskUpdate) (w : World) :
  update_desk desk_id u w =
  match PyDict.get desk_id (desks w) with
  | None => (Raise (HTTPException 404 "Desk not found"), w)
  | Some cur =>
      match patched_desk cur u with
      | Some r => (Ok r, with_desks w (PyDict.set desk_id r (desks w)))
      | None => (Raise ValidationError, w)
      end
  end.
Proof.
  unfold update_desk, bind, the_desks, desks_getitem, getitem, PyDict.mem.
  cbn. destruct (PyDict.get desk_id (desks w)) as [cur|] eqn:Hget;
    [|reflexivity].
  cbn. rewrite Hget. cbn.
  unfold construct, patched_desk, DeskRead_validate.
  destruct u as [[[l|]|] [[h|]|]]; cbn;
    try reflexivity;
    match goal with
    | |- context [DeskConfig_ok ?s] => destruct (DeskConfig_ok s)
    end; cbn; try reflexivity;
    rewrite get_set_same; reflexivity.
Qed.

(** [replace_desk], case by case. *)
Lemma replace_desk_eq (desk_id : UUID) (desk : DeskCreate) (w : World) :
  replace_desk desk_id desk w =
  match PyDict.get desk_id (desks w) with
  | None =>
      if DeskConfig_ok (db_hand_config desk) then
        let r := {| dr_id := desk_id; dr_label := db_label desk;
                    dr_hand_config := db_hand_config desk;
                    dr_created_at := clock w (ticks w);
                    dr_updated_at := clock w (S (ticks w)) |} in
        (Ok r, with_ticks (with_desks w (PyDict.set desk_id r (desks w)))
                          (S (S (ticks w))))
      else (Raise ValidationError, w)
  | Some stored =>
      if DeskConfig_ok (db_hand_config desk) then
        let r := {| dr_id := desk_id; dr_label := db_label desk;
                    dr_hand_config := db_hand_config desk;
                    dr_created_at := dr_created_at stored;
                    dr_updated_at := clock w (ticks w) |} in
        (Ok r, with_ticks (with_desks w (PyDict.set desk_id r (desks w)))
                          (S (ticks w)))
      else (Raise ValidationError, with_ticks w (S (ticks w)))
  end.
Proof.
  unfold replace_desk, bind, the_desks, PyDict.mem.
  destruct (PyDict.get desk_id (desks w)) as [stored|] eqn:Hget.
  - cbn. unfold desks_getitem, bind, the_desks, getitem. cbn. rewrite Hget. cbn.
    unfold construct, DeskRead_validate. cbn.
    destruct (DeskConfig_ok (db_hand_config desk)); reflexivity.
  - unfold construct, DeskBase_validate. cbn -[create_desk].
    destruct (DeskConfig_ok (db_hand_config desk)) eqn:Hok; [|reflexivity].
    rewrite create_desk_eq. cbn. unfold PyDict.mem. rewrite Hget, Hok.
    reflexivity.
Qed.

Lemma get_desk_eq (desk_id : UUID) (w : World) :
  get_desk desk_id w =
  match PyDict.get desk_id (desks w) with
  | None => (Raise (HTTPException 404 "Desk not found"), w)
  | Some r => (Ok r, w)
  end.
Proof.
  unfold get_desk, bind, the_desks, desks_getitem, getitem, PyDict.mem. cbn.
  destruct (PyDict.get desk_id (desks w)) as [r|] eqn:Hget; cbn; [|reflexivity].
  rewrite Hget. reflexivity.
Qed.

Lemma delete_desk_eq (desk_id : UUID) (w : World) :
  delete_desk desk_id w =
  match PyDict.get desk_id (desks w) with
  | None => (Raise (HTTPException 404 "Desk not found"), w)
  | Some _ =>
      (Ok [("confirmation", VStr "Desk deleted successfully")],
       with_desks w (PyDict.del desk_id (desks w)))
  end.
Proof.
  unfold delete_desk, bind, the_desks, PyDict.mem.
  destruct (PyDict.get desk_id (desks w)); reflexivity.
Qed.

Lemma list_desks_world (label hand_config : option string) (w : World) :
  snd (list_desks label hand_config w) = w.
Proof. reflexivity. Qed.

(** Without filters, [list_desks] hands back the values of the dictionary
    in its iteration order. *)
Lemma list_desks_all (w : World) :
  list_desks None None w = (Ok (PyDict.values (desks w)), w).
Proof. reflexivity. Qed.

(** * The classroom handlers *)

(** Embedded desks that were dumped in full come back as they were, their
    [id] now supplied; no identifier is drawn. *)
Lemma validate_each_dump (l : list DeskBase) (w : World) :
  validate_each as_desk (map (fun d => VDict (DeskBase_dump d)) l) w =
  (if forallb DeskCreate_ok l then Some (map supplied l) else None, w).
Proof.
  revert w. induction l as [|d l IH]; intros w; [reflexivity|].
  cbn [map validate_each forallb].
  replace (as_desk (VDict (DeskBase_dump d)) w)
    with (if DeskCreate_ok d then Some (supplied d) else None, w).
  - rewrite IH. destruct (DeskCreate_ok d), (forallb DeskCreate_ok l);
      reflexivity.
  - unfold as_desk, DeskBase_validate, DeskCreate_ok, supplied. cbn.
    destruct (DeskConfig_ok (db_hand_config d)); reflexivity.
Qed.

Lemma ClassroomRead_validate_dump (c : ClassroomBase) (w : World) :
  ClassroomRead_validate (ClassroomBase_dump c) w =
  (if ClassroomCreate_ok c then
     Some {| cr_id := cb_id c; cr_room_no := cb_room_no c;
             cr_building := cb_building c;
             cr_university := cb_university c;
             cr_desks := map supplied (cb_desks c);
             cr_created_at := clock w (ticks w);
             cr_updated_at := clock w (S (ticks w)) |}
   else None,
   with_ticks w (S (S (ticks w)))).
Proof.
  unfold ClassroomRead_validate, ClassroomBase_dump, ClassroomCreate_ok.
  cbn. unfold desks_field. cbn. unfold dump_desks, as_desks.
  rewrite validate_each_dump. cbn.
  destruct (cb_university c); cbn;
    destruct (forallb DeskCreate_ok (cb_desks c)); reflexivity.
Qed.

(** [create_classroom] never looks whether the id is taken. *)
Lemma create_classroom_eq (c : ClassroomCreate) (w : World) :
  create_classroom c w =
  if ClassroomCreate_ok c then
    let r := {| cr_id := cb_id c; cr_room_no := cb_room_no c;
                cr_building := cb_building c;
                cr_university := cb_university c;
                cr_desks := map supplied (cb_desks c);
                cr_created_at := clock w (ticks w);
                cr_updated_at := clock w (S (ticks w)) |} in
    (Ok r, with_ticks (with_classrooms w (PyDict.set (cb_id c) r (classrooms w)))
                      (S (S (ticks w))))
  else (Raise ValidationError, with_ticks w (S (S (ticks w)))).
Proof.
  unfold create_classroom, bind, construct.
  rewrite ClassroomRead_validate_dump.
  destruct (ClassroomCreate_ok c); reflexivity.
Qed.

(** [replace_classroom]: on a missing id the keyword arguments handed to
    [DeskCreate] carry neither [label] nor [hand_config]. *)
Lemma replace_classroom_eq (classroom_id : UUID) (c : ClassroomCreate) (w : World) :
  replace_classroom classroom_id c w =
  match PyDict.get classroom_id (classrooms w) with
  | None => (Raise ValidationError, w)
  | Some stored =>
      if ClassroomCreate_ok c then
        let r := {| cr_id := classroom_id; cr_room_no := cb_room_no c;
                    cr_building := cb_building c;
                    cr_university := cb_university c;
                    cr_desks := map supplied (cb_desks c);
                    cr_created_at := cr_created_at stored;
                    cr_updated_at := clock w (ticks w) |} in
        (Ok (MClassroomRead r),
         with_ticks (with_classrooms w (PyDict.set classroom_id r (classrooms w)))
                    (S (ticks w)))
      else (Raise ValidationError, with_ticks w (S (ticks w)))
  end.
Proof.
  unfold replace_classroom, bind, the_classrooms, PyDict.mem.
  destruct (PyDict.get classroom_id (classrooms w)) as [stored|] eqn:Hget.
  - cbn. unfold classrooms_getitem, bind, the_classrooms, getitem. cbn.
    rewrite Hget. cbn.
    unfold construct, ClassroomRead_validate, ClassroomCreate_ok. cbn.
    unfold desks_field. cbn. unfold dump_desks, as_desks.
    rewrite validate_each_dump. cbn.
    destruct (cb_university c); cbn;
      destruct (forallb DeskCreate_ok (cb_desks c)); reflexivity.
  - reflexivity.
Qed.

Lemma get_classrooom_eq (classroom_id : UUID) (w : World) :
  get_classrooom classroom_id w =
  match PyDict.get classroom_id (classrooms w) with
  | None => (Raise (HTTPException 404 "Classroom not found"), w)
  | Some r => (Ok r, w)
  end.
Proof.
  unfold get_classrooom, bind, the_classrooms, classrooms_getitem, getitem,
    PyDict.mem. cbn.
  destruct (PyDict.get classroom_id (classrooms w)) as [r|] eqn:Hget; cbn;
    [|reflexivity].
  rewrite Hget. reflexivity.
Qed.

Lemma delete_classroom_eq (classroom_id : UUID) (w : World) :
  delete_classroom classroom_id w =
  match PyDict.get classroom_id (classrooms w) with
  | None => (Raise (HTTPException 404 "Classroom not found"), w)
  | Some _ =>
      (Ok [("confirmation", VStr "Classroom deleted successfully")],
       with_classrooms w (PyDict.del classroom_id (classrooms w)))
  end.
Proof.
  unfold delete_classroom, bind, the_classrooms, PyDict.mem.
  destruct (PyDict.get classroom_id (classrooms w)); reflexivity.
Qed.

(** [list_classrooms] never changes the world. *)
Lemma list_classrooms_world (r b u l h : option string) (w : World) :
  snd (list_classrooms r b u l h w) = w.
Proof.
  unfold list_classrooms, bind, the_desks, lift, ret.
  repeat match goal with
         | |- context [match ?o with Some _ => _ | None => _ end] =>
             is_var o; destruct o
         | |- context [py_filter ?f ?xs] => destruct (py_filter f xs)
         end; reflexivity.
Qed.

(** Without filters it hands back the values of the [desks] dictionary. *)
Lemma list_classrooms_all (w : World) :
  list_classrooms None None None None None w = (Ok (PyDict.values (desks w)), w).
Proof. reflexivity. Qed.

(** Validating desks draws identifiers and does nothing else. *)
Lemma only_draws_refl (w : World) : only_draws w w.
Proof. repeat split. Qed.

Lemma only_draws_trans (w1 w2 w3 : World) :
  only_draws w1 w2 -> only_draws w2 w3 -> only_draws w1 w3.
Proof.
  intros (A1 & A2 & A3 & A4) (B1 & B2 & B3 & B4).
  repeat split; congruence.
Qed.

Lemma DeskBase_validate_draws (kw : Dict) (w : World) :
  only_draws w (snd (DeskBase_validate kw w)).
Proof.
  unfold DeskBase_validate, with_factory, uuid4.
  destruct (PyDict.get "id" kw); cbn; repeat split.
Qed.

Lemma as_desk_draws (v : PyVal) (w : World) : only_draws w (snd (as_desk v w)).
Proof.
  destruct v; try apply only_draws_refl. apply DeskBase_validate_draws.
Qed.

Lemma validate_each_draws (l : list PyVal) (w : World) :
  only_draws w (snd (validate_each as_desk l w)).
Proof.
  revert w. induction l as [|x l IH]; intros w; [apply only_draws_refl|].
  cbn [validate_each].
  pose proof (as_desk_draws x w) as Hx.
  destruct (as_desk x w) as [a w1]. cbn [snd] in Hx.
  pose proof (IH w1) as Hl.
  destruct (validate_each as_desk l w1) as [rs w2]. cbn [snd] in *.
  eapply only_draws_trans; eassumption.
Qed.

Lemma desks_field_draws (kw : Dict) (w : World) :
  only_draws w (snd (desks_field kw w)).
Proof.
  unfold desks_field, as_desks.
  destruct (PyDict.get "desks" kw) as [[]|];
    try apply only_draws_refl. apply validate_each_draws.
Qed.

(** A [ClassroomRead] built from keyword arguments that carry its id and
    both timestamps keeps them, and reads no clock. *)
Lemma ClassroomRead_validate_stamped (kw : Dict) (w : World) i c m :
  PyDict.get "id" kw = Some (VUuid i) ->
  PyDict.get "created_at" kw = Some (VTime c) ->
  PyDict.get "updated_at" kw = Some (VTime m) ->
  only_draws w (snd (ClassroomRead_validate kw w))
  /\ forall r, fst (ClassroomRead_validate kw w) = Some r ->
               cr_id r = i /\ cr_created_at r = c /\ cr_updated_at r = m.
Proof.
  intros Hi Hc Hm. unfold ClassroomRead_validate, with_factory.
  rewrite Hi, Hc, Hm. cbn [as_uuid as_datetime].
  pose proof (desks_field_draws kw w) as Hd.
  destruct (desks_field kw w) as [ds w2]. cbn [snd] in Hd.
  split; [exact Hd|].
  cbn [fst]. intros r.
  destruct (required as_str kw "room_no"), (required as_str kw "building"),
    (defaulted as_opt_str None kw "university"), ds; try discriminate.
  intros [= <-]. auto.
Qed.

Lemma ClassroomUpdate_dump_set_keys (u : ClassroomUpdate) (k : string) :
  k <> "room_no" -> k <> "building" -> k <> "university" -> k <> "desks" ->
  PyDict.mem k (ClassroomUpdate_dump_set u) = false.
Proof.
  intros H1 H2 H3 H4.
  apply String.eqb_neq in H1, H2, H3, H4.
  unfold ClassroomUpdate_dump_set, PyDict.mem.
  destruct (cu_room_no u), (cu_building u), (cu_university u),
    (cu_desks u) as [[]|];
    cbn; rewrite ?H1, ?H2, ?H3, ?H4; reflexivity.
Qed.

(** [update_classroom]: what it does to the world and to the id and the
    timestamps of the record. *)
Lemma update_classroom_effect (classroom_id : UUID) (u : ClassroomUpdate) (w : World) :
  match PyDict.get classroom_id (classrooms w) with
  | None =>
      update_classroom classroom_id u w =
      (Raise (HTTPException 404 "Classroom not found"), w)
  | Some cur =>
      exists w1, only_draws w w1 /\
        (update_classroom classroom_id u w = (Raise ValidationError, w1)
         \/ exists r,
              update_classroom classroom_id u w =
              (Ok r, with_classrooms w1 (PyDict.set classroom_id r (classrooms w)))
              /\ cr_id r = cr_id cur
              /\ cr_created_at r = cr_created_at cur
              /\ cr_updated_at r = cr_updated_at cur)
  end.
Proof.
  unfold update_classroom, bind, the_classrooms, classrooms_getitem, getitem,
    PyDict.mem.
  destruct (PyDict.get classroom_id (classrooms w)) as [cur|] eqn:Hget;
    [|reflexivity].
  cbn. rewrite Hget. cbn. unfold construct.
  set (kw := PyDict.update (ClassroomRead_dump cur) (ClassroomUpdate_dump_set u)).
  destruct (ClassroomRead_validate_stamped kw w
              (i := cr_id cur) (c := cr_created_at cur) (m := cr_updated_at cur))
    as [Hd Hr].
  - unfold kw. rewrite get_update_absent by
      (apply ClassroomUpdate_dump_set_keys; discriminate). reflexivity.
  - unfold kw. rewrite get_update_absent by
      (apply ClassroomUpdate_dump_set_keys; discriminate). reflexivity.
  - unfold kw. rewrite get_update_absent by
      (apply ClassroomUpdate_dump_set_keys; discriminate). reflexivity.
  - destruct (ClassroomRead_validate kw w) as [[r|] w1]; cbn [fst snd] in *.
    + exists w1. split; [exact Hd|]. right. exists r.
      destruct (Hr r eq_refl) as (E1 & E2 & E3).
      destruct Hd as (D1 & D2 & D3 & D4).
      cbn. rewrite D1, get_set_same. auto.
    + exists w1. split; [exact Hd|]. now left.
Qed.

(** * Timestamps along a history *)

Lemma Forall_weaken {A} (P Q : A -> Prop) (l : list A) :
  (forall a, P a -> Q a) -> Forall P l -> Forall Q l.
Proof. intros HPQ Hl. induction Hl; constructor; auto. Qed.

Lemma get_Forall {K V} `{EqKey K} (P : V -> Prop) (k : K) (v : V) (d : list (K * V)) :
  Forall (fun kv => P (snd kv)) d -> PyDict.get k d = Some v -> P v.
Proof.
  intros Hd Hg. destruct (get_In _ _ Hg) as [k' Hin].
  rewrite Forall_forall in Hd. exact (Hd _ Hin).
Qed.

(** The invariant survives reading the clock any number of times... *)
Lemma stamps_inv_ticks (w : World) (n : nat) :
  stamps_inv w -> (ticks w <= n)%nat -> stamps_inv (with_ticks w n).
Proof.
  intros (Hm & Hd & Hc) Hn. split; [exact Hm|]. cbn.
  split; [revert Hd | revert Hc]; apply Forall_weaken;
    intros kv [H1 H2]; (split; [exact H1|]);
    (eapply Z.le_trans; [exact H2|]); apply Hm; exact Hn.
Qed.

(** ... drawing identifiers... *)
Lemma stamps_inv_draws (w w1 : World) :
  stamps_inv w -> only_draws w w1 -> stamps_inv w1.
Proof.
  intros (Hm & Hd & Hc) (D1 & D2 & D3 & D4).
  unfold stamps_inv, clock_monotone. rewrite D1, D2, D3, D4. auto.
Qed.

(** ... storing a record whose timestamps are in order... *)
Lemma stamps_inv_set_desk (w : World) (k : UUID) (r : DeskRead) :
  stamps_inv w ->
  dr_created_at r <= dr_updated_at r ->
  dr_created_at r <= clock w (ticks w) ->
  stamps_inv (with_desks w (PyDict.set k r (desks w))).
Proof.
  intros (Hm & Hd & Hc) H1 H2. split; [exact Hm|]. split; [|exact Hc]. cbn.
  apply (Forall_set (fun v => dr_created_at v <= dr_updated_at v
                              /\ dr_created_at v <= clock w (ticks w)));
    auto.
Qed.

Lemma stamps_inv_set_classroom (w : World) (k : UUID) (r : ClassroomRead) :
  stamps_inv w ->
  cr_created_at r <= cr_updated_at r ->
  cr_created_at r <= clock w (ticks w) ->
  stamps_inv (with_classrooms w (PyDict.set k r (classrooms w))).
Proof.
  intros (Hm & Hd & Hc) H1 H2. split; [exact Hm|]. split; [exact Hd|]. cbn.
  apply (Forall_set (fun v => cr_created_at v <= cr_updated_at v
                              /\ cr_created_at v <= clock w (ticks w)));
    auto.
Qed.

(** ... and deleting one. *)
Lemma stamps_inv_del_desk (w : World) (k : UUID) :
  stamps_inv w -> stamps_inv (with_desks w (PyDict.del k (desks w))).
Proof.
  intros (Hm & Hd & Hc). split; [exact Hm|]. split; [|exact Hc].
  now apply Forall_del.
Qed.

Lemma stamps_inv_del_classroom (w : World) (k : UUID) :
  stamps_inv w -> stamps_inv (with_classrooms w (PyDict.del k (classrooms w))).
Proof.
  intros (Hm & Hd & Hc). split; [exact Hm|]. split; [exact Hd|].
  now apply Forall_del.
Qed.

Lemma stamps_inv_desk (w : World) (k : UUID) (r : DeskRead) :
  stamps_inv w -> PyDict.get k (desks w) = Some r ->
  dr_created_at r <= dr_updated_at r /\ dr_created_at r <= clock w (ticks w).
Proof.
  intros (_ & Hd & _) Hg.
  eapply get_Forall with
    (P := fun v => dr_created_at v <= dr_updated_at v
                   /\ dr_created_at v <= clock w (ticks w)); eassumption.
Qed.

Lemma stamps_inv_classroom (w : World) (k : UUID) (r : ClassroomRead) :
  stamps_inv w -> PyDict.get k (classrooms w) = Some r ->
  cr_created_at r <= cr_updated_at r /\ cr_created_at r <= clock w (ticks w).
Proof.
  intros (_ & _ & Hc) Hg.
  eapply get_Forall with
    (P := fun v => cr_created_at v <= cr_updated_at v
                   /\ cr_created_at v <= clock w (ticks w)); eassumption.
Qed.

(** Every request keeps the invariant. *)
Lemma stamps_inv_step (w : World) (r : Request) :
  stamps_inv w -> stamps_inv (step w r).
Proof.
  intros Hw. pose proof Hw as (Hm & _ & _).
  destruct r as [d|l h|i|i u|i d|i|c|r b u l h|i|i u|i c|i|]; unfold step, after.
  - (* create_desk *)
    rewrite create_desk_eq.
    destruct (PyDict.mem (db_id d) (desks w)); [exact Hw|].
    destruct (DeskConfig_ok (db_hand_config d)); cbn [snd].
    + apply stamps_inv_ticks; [|cbn; lia].
      apply stamps_inv_set_desk; cbn; auto with zarith.
    + apply stamps_inv_ticks; [exact Hw|lia].
  - rewrite list_desks_world. exact Hw.
  - rewrite get_desk_eq. destruct (PyDict.get i (desks w)); exact Hw.
  - (* update_desk *)
    rewrite update_desk_eq.
    destruct (PyDict.get i (desks w)) as [cur|] eqn:Hget; [|exact Hw].
    destruct (stamps_inv_desk _ Hw Hget) as [H1 H2].
    destruct (patched_desk cur u) as [r|] eqn:Hp; [|exact Hw]. cbn [snd].
    unfold patched_desk in Hp.
    destruct (patched_str (dr_label cur) (du_label u)) as [l'|];
      [|discriminate].
    destruct (patched_str (dr_hand_config cur) (du_hand_config u)) as [h'|];
      [|discriminate].
    destruct (DeskConfig_ok h'); [|discriminate]. injection Hp as <-.
    apply stamps_inv_set_desk; auto.
  - (* replace_desk *)
    rewrite replace_desk_eq.
    destruct (PyDict.get i (desks w)) as [stored|] eqn:Hget;
      destruct (DeskConfig_ok (db_hand_config d)); cbn [snd]; try exact Hw.
    + destruct (stamps_inv_desk _ Hw Hget) as [H1 H2].
      apply stamps_inv_ticks; [|cbn; lia].
      apply stamps_inv_set_desk; cbn; auto.
    + apply stamps_inv_ticks; [exact Hw|lia].
    + apply stamps_inv_ticks; [|cbn; lia].
      apply stamps_inv_set_desk; cbn; auto with zarith.
  - rewrite delete_desk_eq.
    destruct (PyDict.get i (desks w)); [|exact Hw].
    now apply stamps_inv_del_desk.
  - (* create_classroom *)
    rewrite create_classroom_eq.
    destruct (ClassroomCreate_ok c); cbn [snd].
    + apply stamps_inv_ticks; [|cbn; lia].
      apply stamps_inv_set_classroom; cbn; auto with zarith.
    + apply stamps_inv_ticks; [exact Hw|lia].
  - rewrite list_classrooms_world. exact Hw.
  - rewrite get_classrooom_eq. destruct (PyDict.get i (classrooms w)); exact Hw.
  - (* update_classroom *)
    pose proof (update_classroom_effect i u w) as He.
    destruct (PyDict.get i (classrooms w)) as [cur|] eqn:Hget.
    + destruct (stamps_inv_classroom _ Hw Hget) as [H1 H2].
      destruct He as (w1 & Hd & [-> | (r & -> & E1 & E2 & E3)]); cbn [snd].
      * eapply stamps_inv_draws; eassumption.
      * pose proof (stamps_inv_draws Hw Hd) as Hw1.
        destruct Hd as (D1 & D2 & D3 & D4). rewrite <- D1.
        apply stamps_inv_set_classroom; [exact Hw1| |]; rewrite ?D3, ?D4; lia.
    + rewrite He. exact Hw.
  - (* replace_classroom *)
    rewrite replace_classroom_eq.
    destruct (PyDict.get i (classrooms w)) as [stored|] eqn:Hget; [|exact Hw].
    destruct (stamps_inv_classroom _ Hw Hget) as [H1 H2].
    destruct (ClassroomCreate_ok c); cbn [snd].
    + apply stamps_inv_ticks; [|cbn; lia].
      apply stamps_inv_set_classroom; cbn; auto.
    + apply stamps_inv_ticks; [exact Hw|lia].
  - rewrite delete_classroom_eq.
    destruct (PyDict.get i (classrooms w)); [|exact Hw].
    now apply stamps_inv_del_classroom.
  - (* make_health *)
    apply stamps_inv_ticks; [exact Hw|lia].
Qed.

Lemma stamps_inv_run (rs : list Request) (w : World) :
  stamps_inv w -> stamps_inv (run w rs).
Proof.
  revert w. induction rs as [|r rs IH]; intros w Hw; [exact Hw|].
  apply IH. now apply stamps_inv_step.
Qed.

Lemma stamps_inv_ordered (w : World) : stamps_inv w -> stamps_ordered w.
Proof.
  intros (_ & Hd & Hc).
  split; [revert Hd | revert Hc]; apply Forall_weaken; tauto.
Qed.

(** * Which store a request writes *)

(** A classroom request leaves the [desks] dictionary as it was, and a desk
    request the [classrooms] dictionary. *)
Lemma step_frame (w : World) (r : Request) :
  (is_classroom_request r = true -> desks (step w r) = desks w)
  /\ (is_desk_request r = true -> classrooms (step w r) = classrooms w).
Proof.
  destruct r as [d|l h|i|i u|i d|i|c|r b u l h|i|i u|i c|i|];
    cbn [is_classroom_request is_desk_request]; (split; [|]);
    try discriminate; intros _; unfold step, after.
  - rewrite create_desk_eq.
    destruct (PyDict.mem (db_id d) (desks w)),
      (DeskConfig_ok (db_hand_config d)); reflexivity.
  - reflexivity.
  - rewrite get_desk_eq. destruct (PyDict.get _ _); reflexivity.
  - rewrite update_desk_eq.
    destruct (PyDict.get _ _) as [cur|]; [|reflexivity].
    destruct (patched_desk cur u); reflexivity.
  - rewrite replace_desk_eq.
    destruct (PyDict.get i (desks w)), (DeskConfig_ok (db_hand_config d));
      reflexivity.
  - rewrite delete_desk_eq. destruct (PyDict.get _ _); reflexivity.
  - rewrite create_classroom_eq. destruct (ClassroomCreate_ok c); reflexivity.
  - now rewrite list_classrooms_world.
  - rewrite get_classrooom_eq. destruct (PyDict.get _ _); reflexivity.
  - pose proof (update_classroom_effect i u w) as He.
    destruct (PyDict.get i (classrooms w)).
    + destruct He as (w1 & (_ & D2 & _) & [-> | (r & -> & _)]); exact D2.
    + now rewrite He.
  - rewrite replace_classroom_eq.
    destruct (PyDict.get _ _); [|reflexivity].
    destruct (ClassroomCreate_ok c); reflexivity.
  - rewrite delete_classroom_eq. destruct (PyDict.get _ _); reflexivity.
Qed.

(** * Body validation of the desk routes *)

(** A [DeskCreate] body with a [hand_config] outside the pattern is turned
    away before [create_desk] or [replace_desk] runs; both stores stay. *)
Lemma DeskBase_validate_bad_config (kw : Dict) (s : string) (w : World) :
  PyDict.get "hand_config" kw = Some (VStr s) ->
  DeskConfig_ok s = false ->
  fst (DeskBase_validate kw w) = None.
Proof.
  intros Hg Hbad. unfold DeskBase_validate, required.
  destruct (with_factory as_uuid uuid4 kw "id" w) as [id w1].
  rewrite Hg. cbn. rewrite Hbad.
  destruct id, (match PyDict.get "label" kw with
                | Some v => as_str v
                | None => None
                end); reflexivity.
Qed.

Lemma post_desks_bad_config (kw : Dict) (s : string) (w : World) :
  PyDict.get "hand_config" kw = Some (VStr s) ->
  DeskConfig_ok s = false ->
  exists w', post_desks (VDict kw) w = (Raise RequestValidationError, w')
             /\ only_draws w w'.
Proof.
  intros Hg Hbad. unfold post_desks, bind, from_body.
  pose proof (DeskBase_validate_bad_config kw w Hg Hbad) as Hv.
  pose proof (DeskBase_validate_draws kw w) as Hd.
  destruct (DeskBase_validate kw w) as [res w1]. cbn in Hv, Hd. subst res.
  eauto.
Qed.

Lemma put_desk_bad_config (desk_id : UUID) (kw : Dict) (s : string) (w : World) :
  PyDict.get "hand_config" kw = Some (VStr s) ->
  DeskConfig_ok s = false ->
  exists w', put_desk desk_id (VDict kw) w = (Raise RequestValidationError, w')
             /\ only_draws w w'.
Proof.
  intros Hg Hbad. unfold put_desk, bind, from_body.
  pose proof (DeskBase_validate_bad_config kw w Hg Hbad) as Hv.
  pose proof (DeskBase_validate_draws kw w) as Hd.
  destruct (DeskBase_validate kw w) as [res w1]. cbn in Hv, Hd. subst res.
  eauto.
Qed.

(** [DeskUpdate] puts no pattern on [hand_config]: any string passes. *)
Lemma DeskUpdate_validate_any_config (s : string) (w : World) :
  from_body DeskUpdate_validate (VDict [("hand_config", VStr s)]) w =
  (Ok {| du_label := None; du_hand_config := Some (Some s) |}, w).
Proof. reflexivity. Qed.

(** The handler then fails on rebuilding the [DeskRead], not the
    framework on the body; the store is left as it was. *)
Lemma patch_desk_bad_config (desk_id : UUID) (s : string) (w : World) :
  DeskConfig_ok s = false ->
  patch_desk desk_id (VDict [("hand_config", VStr s)]) w =
  match PyDict.get desk_id (desks w) with
  | None => (Raise (HTTPException 404 "Desk not found"), w)
  | Some _ => (Raise ValidationError, w)
  end.
Proof.
  intros Hbad. unfold patch_desk, bind.
  rewrite DeskUpdate_validate_any_config, update_desk_eq.
  destruct (PyDict.get desk_id (desks w)) as [cur|]; [|reflexivity].
  unfold patched_desk. cbn. now rewrite Hbad.
Qed.

(** * Creation order *)

Lemma create_all_values (l : list DeskCreate) (w w' : World) (rs : list DeskRead) :
  create_all l w = (Ok rs, w') ->
  PyDict.values (desks w') = PyDict.values (desks w) ++ rs.
Proof.
  revert w rs. induction l as [|d l IH]; intros w rs; cbn [create_all].
  - intros [= <- <-]. now rewrite app_nil_r.
  - unfold bind at 1. rewrite create_desk_eq.
    destruct (PyDict.mem (db_id d) (desks w)) eqn:Hmem; [discriminate|].
    destruct (DeskConfig_ok (db_hand_config d)); [|discriminate]. cbn zeta.
    unfold bind at 1.
    destruct (create_all l _) as [[xs|e] w2] eqn:Hrest; [|discriminate].
    intros [= <- <-]. rewrite (IH _ _ Hrest). cbn [desks with_ticks with_desks].
    rewrite set_absent by exact Hmem.
    unfold PyDict.values. rewrite map_app, <- app_assoc. reflexivity.
Qed.

(** * The stores stay dictionaries *)

Ltac store_simpl :=
  cbn [fst snd desks classrooms with_desks with_classrooms with_ticks
       with_uuid_draws].

Lemma keys_unique_step (w : World) (r : Request) :
  keys_unique w -> keys_unique (step w r).
Proof.
  intros [Hd Hc].
  destruct r as [d|l h|i|i u|i d|i|c|r b u l h|i|i u|i c|i|]; unfold step, after.
  - rewrite create_desk_eq.
    destruct (PyDict.mem (db_id d) (desks w)),
      (DeskConfig_ok (db_hand_config d)); split; store_simpl; auto using NoDup_set.
  - rewrite list_desks_world. now split.
  - rewrite get_desk_eq. destruct (PyDict.get i (desks w)); now split.
  - rewrite update_desk_eq.
    destruct (PyDict.get i (desks w)) as [cur|]; [|now split].
    destruct (patched_desk cur u); split; store_simpl; auto using NoDup_set.
  - rewrite replace_desk_eq.
    destruct (PyDict.get i (desks w)), (DeskConfig_ok (db_hand_config d));
      split; store_simpl; auto using NoDup_set.
  - rewrite delete_desk_eq.
    destruct (PyDict.get i (desks w)); split; store_simpl; auto using NoDup_del.
  - rewrite create_classroom_eq.
    destruct (ClassroomCreate_ok c); split; store_simpl; auto using NoDup_set.
  - rewrite list_classrooms_world. now split.
  - rewrite get_classrooom_eq. destruct (PyDict.get i (classrooms w)); now split.
  - pose proof (update_classroom_effect i u w) as He.
    destruct (PyDict.get i (classrooms w)).
    + destruct He as (w1 & (D1 & D2 & _) & [-> | (r & -> & _)]);
        split; store_simpl; rewrite ?D1, ?D2; auto using NoDup_set.
    + rewrite He. now split.
  - rewrite replace_classroom_eq.
    destruct (PyDict.get i (classrooms w)); [|now split].
    destruct (ClassroomCreate_ok c); split; store_simpl; auto using NoDup_set.
  - rewrite delete_classroom_eq.
    destruct (PyDict.get i (classrooms w)); split; store_simpl; auto using NoDup_del.
  - now split.
Qed.

Lemma keys_unique_run (rs : list Request) (w : World) :
  keys_unique w -> keys_unique (run w rs).
Proof.
  revert w. induction rs as [|r rs IH]; intros w Hw; [exact Hw|].
  apply IH. now apply keys_unique_step.
Qed.

(** A deleted desk is gone: the next [get_desk] answers 404. *)
Lemma delete_desk_then_get (desk_id : UUID) (w : World) :
  keys_unique w ->
  PyDict.mem desk_id (desks w) = true ->
  exists w', delete_desk desk_id w
             = (Ok [("confirmation", VStr "Desk deleted successfully")], w')
             /\ get_desk desk_id w'
                = (Raise (HTTPException 404 "Desk not found"), w').
Proof.
  intros [Hd _] Hmem. rewrite delete_desk_eq.
  unfold PyDict.mem in Hmem.
  destruct (PyDict.get desk_id (desks w)); [|discriminate].
  eexists. split; [reflexivity|].
  rewrite get_desk_eq. cbn [desks with_desks].
  now rewrite get_del_same.
Qed.

Lemma delete_classroom_then_get (classroom_id : UUID) (w : World) :
  keys_unique w ->
  PyDict.mem classroom_id (classrooms w) = true ->
  exists w', delete_classroom classroom_id w
             = (Ok [("confirmation", VStr "Classroom deleted successfully")], w')
             /\ get_classrooom classroom_id w'
                = (Raise (HTTPException 404 "Classroom not found"), w').
Proof.
  intros [_ Hc] Hmem. rewrite delete_classroom_eq.
  unfold PyDict.mem in Hmem.
  destruct (PyDict.get classroom_id (classrooms w)); [|discriminate].
  eexists. split; [reflexivity|].
  rewrite get_classrooom_eq. cbn [classrooms with_classrooms].
  now rewrite get_del_same.
Qed.

(** * The claims *)

(** C1.  Partial update is meant to merge the patch and to refresh
    [updated_at].  On a stored desk and on a stored classroom, the empty
    patch makes [update_desk] and [update_classroom] hand back the stored
    record as it is, [updated_at] included, although the next reading of
    the clock is later than the stored [updated_at]: the dumped record
    carries its old [updated_at] into the model class, so the default
    factory never runs. *)
Theorem empty_patch_keeps_updated_at :
  PyDict.get 1%N (desks one_desk_world) = Some read_12H
  /\ update_desk 1%N empty_patch one_desk_world = (Ok read_12H, one_desk_world)
  /\ dr_updated_at read_12H < clock one_desk_world (ticks one_desk_world)
  /\ PyDict.get 7%N (classrooms one_classroom_world) = Some read_502
  /\ update_classroom 7%N empty_classroom_patch one_classroom_world
     = (Ok read_502, one_classroom_world)
  /\ cr_updated_at read_502 < clock one_classroom_world (ticks one_classroom_world).
Proof. repeat split. Qed.

(** C2.  Listing classrooms without filters is meant to return the stored
    classrooms.  With one classroom stored and no desk, [list_classrooms]
    returns the empty list, where the listing the specification describes
    holds that classroom: the handler starts from the values of [desks]. *)
Theorem list_classrooms_misses_stored_classroom :
  PyDict.values (classrooms one_classroom_world) = [read_502]
  /\ spec_list_classrooms None None None None None one_classroom_world = [read_502]
  /\ list_classrooms None None None None None one_classroom_world
     = (Ok [], one_classroom_world).
Proof. repeat split. Qed.

(** C3.  Replace-or-create on a missing classroom id is meant to create the
    classroom.  On the empty store [replace_classroom] raises a validation
    error (it hands the classroom's fields to [DeskCreate], which misses
    [label] and [hand_config]), stores nothing, and the following
    [get_classrooom] of the same id answers 404. *)
Theorem replace_classroom_missing_id_creates_nothing :
  replace_classroom 7%N classroom_502 fresh_world = (Raise ValidationError, fresh_world)
  /\ get_classrooom 7%N (after (replace_classroom 7%N classroom_502) fresh_world)
     = (Raise (HTTPException 404 "Classroom not found"), fresh_world).
Proof. repeat split. Qed.

(** C4.  Filtering classrooms by [hand_config] is meant to keep the
    classrooms with a matching embedded desk.  The stored classroom has a
    desk with [hand_config] "Right", and the listing the specification
    describes keeps it; [list_classrooms] returns the empty list while the
    desks store is empty, and raises [AttributeError] as soon as the desks
    store holds a desk, for the [label] filter and the [room_no] filter
    alike. *)
Theorem list_classrooms_filter_misses_classroom :
  spec_list_classrooms None None None None (Some "Right") one_classroom_world
  = [read_502]
  /\ list_classrooms None None None None (Some "Right") one_classroom_world
     = (Ok [], one_classroom_world)
  /\ list_classrooms None None None None (Some "Right") classroom_and_desk_world
     = (Raise (AttributeError "desks"), classroom_and_desk_world)
  /\ list_classrooms None None None (Some "12H") None classroom_and_desk_world
     = (Raise (AttributeError "desks"), classroom_and_desk_world)
  /\ list_classrooms (Some "502") None None None None classroom_and_desk_world
     = (Raise (AttributeError "room_no"), classroom_and_desk_world).
Proof. repeat split. Qed.

(** C6.  The classroom handlers are meant not to read the desks store.  Two
    worlds with the same classrooms store, one with an empty desks store
    and one with a desk in it, get different answers from
    [list_classrooms]: the second answer is the stored desk. *)
Theorem list_classrooms_reads_desks_store :
  classrooms classroom_and_desk_world = classrooms one_classroom_world
  /\ fst (list_classrooms None None None None None one_classroom_world) = Ok []
  /\ fst (list_classrooms None None None None None classroom_and_desk_world)
     = Ok [read_12H].
Proof. repeat split. Qed.

(** C8.  A [hand_config] outside Left and Right is meant to be turned away
    by body validation on every route.  On [PATCH /desks/{id}] the body
    with [hand_config] "Up" passes body validation, [update_desk] runs, and
    the error is the pydantic one raised inside the handler when it rebuilds
    the [DeskRead]; the store is unchanged. *)
Theorem patch_desk_bad_hand_config_reaches_handler :
  from_body DeskUpdate_validate body_hand_config_up one_desk_world
  = (Ok {| du_label := None; du_hand_config := Some (Some "Up") |}, one_desk_world)
  /\ DeskConfig_ok "Up" = false
  /\ patch_desk 1%N body_hand_config_up one_desk_world
     = (Raise ValidationError, one_desk_world).
Proof. repeat split. Qed.

(** C5, as the code has it by design.  [create_desk] answers 400 and leaves
    the world alone when the id is taken; otherwise it appends a record
    whose [created_at] and [updated_at] are the next two readings of the
    clock, in that order, and returns it.  [create_classroom] under an id
    that is not taken appends a record with timestamps likewise and returns
    it.  (What [create_classroom] does under a taken id is not part of this
    statement.) *)
Theorem create_stores_two_clock_readings
    (desk : DeskCreate) (classroom : ClassroomCreate) (w : World) :
  DeskCreate_ok desk = true ->
  ClassroomCreate_ok classroom = true ->
  PyDict.mem (cb_id classroom) (classrooms w) = false ->
  let now1 := clock w (ticks w) in
  let now2 := clock w (S (ticks w)) in
  let d := {| dr_id := db_id desk; dr_label := db_label desk;
              dr_hand_config := db_hand_config desk;
              dr_created_at := now1; dr_updated_at := now2 |} in
  let c := {| cr_id := cb_id classroom; cr_room_no := cb_room_no classroom;
              cr_building := cb_building classroom;
              cr_university := cb_university classroom;
              cr_desks := map supplied (cb_desks classroom);
              cr_created_at := now1; cr_updated_at := now2 |} in
  create_desk desk w
  = (if PyDict.mem (db_id desk) (desks w) then
       (Raise (HTTPException 400 "Desk with this ID already exists"), w)
     else
       (Ok d, with_ticks (with_desks w (desks w ++ [(db_id desk, d)]))
                         (S (S (ticks w)))))
  /\ (if PyDict.mem (db_id desk) (desks w) then True
      else PyDict.get (db_id desk) (desks w ++ [(db_id desk, d)]) = Some d)
  /\ create_classroom classroom w
     = (Ok c, with_ticks
                (with_classrooms w (classrooms w ++ [(cb_id classroom, c)]))
                (S (S (ticks w))))
  /\ PyDict.get (cb_id classroom) (classrooms w ++ [(cb_id classroom, c)])
     = Some c.
Proof.
  intros Hd Hc Hfree now1 now2 d c.
  rewrite create_desk_eq, create_classroom_eq, Hc.
  unfold DeskCreate_ok in Hd. rewrite Hd. cbn zeta. fold now1 now2 d c.
  rewrite <- (set_absent _ c _ Hfree), get_set_same.
  destruct (PyDict.mem (db_id desk) (desks w)) eqn:Hmem.
  - repeat split.
  - rewrite <- (set_absent _ d _ Hmem), get_set_same. repeat split.
Qed.

(** C7.  [replace_desk] with a well-formed body: on a missing id it appends
    a record that carries the id of the path, the label and the hand
    configuration of the body and the next two readings of the clock; on a
    stored id it keeps the position and [created_at] of the stored record,
    takes label and hand configuration from the body and the next reading
    of the clock as [updated_at].  The id of the body is not looked at, and
    the record returned is the one stored under the path id. *)
Theorem replace_desk_spec (desk_id : UUID) (desk : DeskCreate) (w : World) :
  DeskCreate_ok desk = true ->
  replace_desk desk_id desk w
  = match PyDict.get desk_id (desks w) with
    | None =>
        let r := {| dr_id := desk_id; dr_label := db_label desk;
                    dr_hand_config := db_hand_config desk;
                    dr_created_at := clock w (ticks w);
                    dr_updated_at := clock w (S (ticks w)) |} in
        (Ok r, with_ticks (with_desks w (desks w ++ [(desk_id, r)]))
                          (S (S (ticks w))))
    | Some stored =>
        let r := {| dr_id := desk_id; dr_label := db_label desk;
                    dr_hand_config := db_hand_config desk;
                    dr_created_at := dr_created_at stored;
                    dr_updated_at := clock w (ticks w) |} in
        (Ok r, with_ticks (with_desks w (PyDict.set desk_id r (desks w)))
                          (S (ticks w)))
    end
  /\ match replace_desk desk_id desk w with
     | (Ok r, w') => PyDict.get desk_id (desks w') = Some r
                     /\ classrooms w' = classrooms w
     | (Raise _, _) => False
     end.
Proof.
  intros Hd. unfold DeskCreate_ok in Hd.
  rewrite replace_desk_eq, Hd.
  destruct (PyDict.get desk_id (desks w)) as [stored|] eqn:Hget; cbn zeta.
  - repeat split. cbn. apply get_set_same.
  - assert (Hmem : PyDict.mem desk_id (desks w) = false)
      by (unfold PyDict.mem; now rewrite Hget).
    rewrite set_absent by exact Hmem.
    repeat split. cbn. rewrite <- set_absent by exact Hmem. apply get_set_same.
Qed.

(** C9.  Starting from empty stores and with a clock that never runs
    backwards, after any history of requests every record of either store
    has [created_at <= updated_at]. *)
Theorem updated_at_never_before_created_at (w : World) (rs : list Request) :
  clock_monotone w ->
  desks w = [] ->
  classrooms w = [] ->
  stamps_ordered (run w rs).
Proof.
  intros Hm Hd Hc. apply stamps_inv_ordered, stamps_inv_run.
  split; [exact Hm|]. rewrite Hd, Hc. split; constructor.
Qed.

(** C10.  After a history of desk creations on an empty store, all of them
    successful, [list_desks] without filters returns the created records in
    the order of their creation. *)
Theorem list_desks_in_creation_order
    (l : list DeskCreate) (w w' : World) (rs : list DeskRead) :
  desks w = [] ->
  create_all l w = (Ok rs, w') ->
  list_desks None None w' = (Ok rs, w').
Proof.
  intros Hempty Hrun. rewrite list_desks_all.
  rewrite (create_all_values _ _ Hrun), Hempty. reflexivity.
Qed.

(** * Further properties of the handlers *)

Section DictMore.
Context {K V : Type} `{EqKey K}.
Implicit Types (k : K) (v : V) (d e : list (K * V)).

(** Deleting a key leaves the other keys alone. *)
Lemma get_del_other k k' d :
  k <> k' -> PyDict.get k (PyDict.del k' d) = PyDict.get k d.
Proof.
  intros Hne. induction d as [|[k0 v0] d IH]; simpl; auto.
  destruct (keqb_spec k' k0) as [->|Hk]; simpl.
  - now rewrite keqb_neq.
  - now rewrite IH.
Qed.

(** [update] takes the value of a key from its argument, when the argument
    mentions the key once. *)
Lemma get_update_present k v e : forall d,
  NoDup (PyDict.keys e) -> PyDict.get k e = Some v ->
  PyDict.get k (PyDict.update d e) = Some v.
Proof.
  unfold PyDict.update.
  induction e as [|[k' v'] e IH]; simpl; intros d Hnd Hg; [discriminate|].
  inversion Hnd as [|? ? Hnotin Hnd']; subst.
  destruct (keqb_spec k k') as [->|Hk].
  - injection Hg as <-.
    change (PyDict.get k' (PyDict.update (PyDict.set k' v' d) e) = Some v').
    rewrite get_update_absent; [apply get_set_same|].
    unfold PyDict.mem. destruct (PyDict.get k' e) as [x|] eqn:Hx; auto.
    exfalso. apply Hnotin. clear - Hx.
    induction e as [|[k0 v0] e IH]; simpl in *; [discriminate|].
    destruct (keqb_spec k' k0) as [->|Hk0]; auto.
  - now apply IH.
Qed.
End DictMore.

(** X1.  A patch that supplies a label, a hand configuration, both or
    neither, on a stored desk: [update_desk] returns the stored record with
    the supplied fields put in, every other field (id and both timestamps
    included) as it was, and stores it under the same key, at the same
    position, without touching any other record. *)
Theorem update_desk_merges_supplied_fields
    (desk_id : UUID) (label hand_config : option string)
    (cur : DeskRead) (w : World) :
  PyDict.get desk_id (desks w) = Some cur ->
  DeskConfig_ok (or_else hand_config (dr_hand_config cur)) = true ->
  let r := {| dr_id := dr_id cur;
              dr_label := or_else label (dr_label cur);
              dr_hand_config := or_else hand_config (dr_hand_config cur);
              dr_created_at := dr_created_at cur;
              dr_updated_at := dr_updated_at cur |} in
  update_desk desk_id (desk_patch label hand_config) w
  = (Ok r, with_desks w (PyDict.set desk_id r (desks w)))
  /\ PyDict.keys (PyDict.set desk_id r (desks w)) = PyDict.keys (desks w)
  /\ forall k, k <> desk_id ->
       PyDict.get k (PyDict.set desk_id r (desks w)) = PyDict.get k (desks w).
Proof.
  intros Hget Hok r. split; [|split].
  - rewrite update_desk_eq, Hget. unfold patched_desk, desk_patch.
    destruct label, hand_config; cbn in *; rewrite Hok; reflexivity.
  - apply keys_set_present. unfold PyDict.mem. now rewrite Hget.
  - intros k Hk. now apply get_set_other.
Qed.

(** X2.  A patch on a stored desk that supplies [None] for the label or for
    the hand configuration, or a hand configuration outside the pattern,
    makes [update_desk] raise the validation error of [DeskRead]; the world
    stays as it was. *)
Theorem update_desk_rejects_unusable_patch
    (desk_id : UUID) (u : DeskUpdate) (cur : DeskRead) (w : World) :
  PyDict.get desk_id (desks w) = Some cur ->
  du_label u = Some None
  \/ du_hand_config u = Some None
  \/ (exists s, du_hand_config u = Some (Some s) /\ DeskConfig_ok s = false) ->
  update_desk desk_id u w = (Raise ValidationError, w).
Proof.
  intros Hget Hbad. rewrite update_desk_eq, Hget. unfold patched_desk.
  destruct Hbad as [-> | [-> | (s & -> & Hs)]]; cbn.
  - reflexivity.
  - destruct (patched_str (dr_label cur) (du_label u)); reflexivity.
  - rewrite Hs. destruct (patched_str (dr_label cur) (du_label u)); reflexivity.
Qed.

(** X3.  Whatever the body of [PATCH /desks/{id}], every desk that was
    stored is still stored afterwards, under the same key, with the same
    id, creation time and update time; no key is added or removed, and the
    classrooms store is not touched. *)
Theorem patch_desk_keeps_ids_and_stamps
    (desk_id : UUID) (body : PyVal) (w : World) (k : UUID) (cur : DeskRead) :
  PyDict.get k (desks w) = Some cur ->
  let w' := after (patch_desk desk_id body) w in
  (exists r, PyDict.get k (desks w') = Some r
             /\ dr_id r = dr_id cur
             /\ dr_created_at r = dr_created_at cur
             /\ dr_updated_at r = dr_updated_at cur)
  /\ PyDict.keys (desks w') = PyDict.keys (desks w)
  /\ classrooms w' = classrooms w.
Proof.
  intros Hk w'. subst w'. unfold after, patch_desk, bind, from_body.
  destruct body as [| | | | | | |kw];
    try (cbn; split; [eauto|split; reflexivity]).
  unfold DeskUpdate_validate.
  destruct (settable as_opt_str kw "label") as [l|],
    (settable as_opt_str kw "hand_config") as [h|];
    try (cbn; split; [eauto|split; reflexivity]).
  rewrite update_desk_eq.
  destruct (PyDict.get desk_id (desks w)) as [stored|] eqn:Hget;
    [|cbn; split; [eauto|split; reflexivity]].
  destruct (patched_desk stored _) as [r|] eqn:Hp;
    [|cbn; split; [eauto|split; reflexivity]].
  cbn [snd desks classrooms with_desks]. split; [|split; [|reflexivity]].
  - destruct (N.eq_dec k desk_id) as [->|Hne].
    + rewrite get_set_same. exists r. split; [reflexivity|].
      rewrite Hget in Hk. injection Hk as ->.
      unfold patched_desk in Hp. cbn [du_label du_hand_config] in Hp.
      destruct (patched_str (dr_label cur) l) as [l'|]; [|discriminate].
      destruct (patched_str (dr_hand_config cur) h) as [h'|]; [|discriminate].
      destruct (DeskConfig_ok h'); [|discriminate].
      injection Hp as <-. auto.
    + rewrite get_set_other by exact Hne. eauto.
  - apply keys_set_present. unfold PyDict.mem. now rewrite Hget.
Qed.

(** X4.  [POST /desks] with a body that has no [id], a string for the label
    and a hand configuration that matches the pattern: the id is the next
    one that [uuid4] draws, and when no desk is stored under it the new
    record goes to the end of the store with the next two readings of the
    clock as its timestamps. *)
Theorem post_desks_draws_missing_id
    (kw : Dict) (label hand_config : string) (w : World) :
  PyDict.get "id" kw = None ->
  PyDict.get "label" kw = Some (VStr label) ->
  PyDict.get "hand_config" kw = Some (VStr hand_config) ->
  DeskConfig_ok hand_config = true ->
  PyDict.mem (uuid_src w (uuid_draws w)) (desks w) = false ->
  let r := {| dr_id := uuid_src w (uuid_draws w);
              dr_label := label; dr_hand_config := hand_config;
              dr_created_at := clock w (ticks w);
              dr_updated_at := clock w (S (ticks w)) |} in
  post_desks (VDict kw) w
  = (Ok r,
     with_ticks
       (with_uuid_draws
          (with_desks w (desks w ++ [(uuid_src w (uuid_draws w), r)]))
          (S (uuid_draws w)))
       (S (S (ticks w)))).
Proof.
  intros Hid Hl Hh Hok Hfresh r.
  unfold post_desks, bind, from_body, DeskBase_validate, with_factory, required,
    uuid4.
  rewrite Hid, Hl, Hh. cbn [as_str as_desk_config]. rewrite Hok.
  rewrite create_desk_eq.
  cbn [db_id db_label db_hand_config desks with_uuid_draws clock ticks].
  rewrite Hfresh, Hok. cbn zeta. rewrite set_absent by exact Hfresh.
  reflexivity.
Qed.

(** X5.  Whatever the body of [POST /desks], a desk it creates carries the
    two readings of the clock taken during the request and a hand
    configuration that matches the pattern: a body cannot set the
    timestamps. *)
Theorem post_desks_stamps_come_from_clock
    (body : PyVal) (w w' : World) (r : DeskRead) :
  post_desks body w = (Ok r, w') ->
  dr_created_at r = clock w (ticks w)
  /\ dr_updated_at r = clock w (S (ticks w))
  /\ DeskConfig_ok (dr_hand_config r) = true
  /\ PyDict.get (dr_id r) (desks w') = Some r.
Proof.
  unfold post_desks, bind, from_body.
  destruct body as [| | | | | | |kw]; try discriminate.
  pose proof (DeskBase_validate_draws kw w) as Hd.
  destruct (DeskBase_validate kw w) as [[d|] w1]; [|discriminate].
  cbn [snd] in Hd. destruct Hd as (D1 & D2 & D3 & D4).
  rewrite create_desk_eq.
  destruct (PyDict.mem (db_id d) (desks w1)); [discriminate|].
  destruct (DeskConfig_ok (db_hand_config d)) eqn:Hok; [|discriminate].
  cbn zeta. intros [= <- <-]. cbn. rewrite D3, D4.
  repeat split; auto. apply get_set_same.
Qed.

(** X6.  A body with a hand configuration outside the pattern never reaches
    [create_desk] or [replace_desk]: [POST /desks] and [PUT /desks/{id}]
    answer with the validation error of the framework, and leave both
    stores and the clock as they were. *)
Theorem desk_body_with_bad_hand_config_rejected
    (desk_id : UUID) (kw : Dict) (s : string) (w : World) :
  PyDict.get "hand_config" kw = Some (VStr s) ->
  DeskConfig_ok s = false ->
  exists w1,
    post_desks (VDict kw) w = (Raise RequestValidationError, w1)
    /\ put_desk desk_id (VDict kw) w = (Raise RequestValidationError, w1)
    /\ only_draws w w1.
Proof.
  intros Hg Hbad. unfold post_desks, put_desk, bind, from_body.
  pose proof (DeskBase_validate_bad_config kw w Hg Hbad) as Hv.
  pose proof (DeskBase_validate_draws kw w) as Hd.
  destruct (DeskBase_validate kw w) as [res w1]. cbn in Hv, Hd. subst res.
  eauto.
Qed.

(** X8.  A desk created under a free id can be read back at once, and a
    second creation under the same id, whatever its label and hand
    configuration, is answered with 400 and changes nothing. *)
Theorem create_desk_then_get_and_conflict
    (desk other : DeskCreate) (w : World) :
  PyDict.mem (db_id desk) (desks w) = false ->
  DeskCreate_ok desk = true ->
  db_id other = db_id desk ->
  exists r w',
    create_desk desk w = (Ok r, w')
    /\ get_desk (db_id desk) w' = (Ok r, w')
    /\ create_desk other w'
       = (Raise (HTTPException 400 "Desk with this ID already exists"), w').
Proof.
  intros Hfree Hok Hid. unfold DeskCreate_ok in Hok.
  rewrite create_desk_eq, Hfree, Hok. cbn zeta.
  eexists. eexists. split; [reflexivity|].
  rewrite get_desk_eq, create_desk_eq, Hid.
  cbn [desks with_desks with_ticks].
  rewrite mem_set_same, get_set_same. split; reflexivity.
Qed.

(** ** What validation lets through *)

Lemma DeskBase_validate_ok (kw : Dict) (w w' : World) (d : DeskBase) :
  DeskBase_validate kw w = (Some d, w') -> DeskCreate_ok d = true.
Proof.
  unfold DeskBase_validate, required, DeskCreate_ok.
  destruct (with_factory as_uuid uuid4 kw "id" w) as [[i|] w1];
    [|discriminate].
  destruct (match PyDict.get "label" kw with
            | Some v => as_str v
            | None => None
            end) as [l|]; [|discriminate].
  destruct (PyDict.get "hand_config" kw) as [[| | |s| | | |]|];
    try discriminate.
  cbn. destruct (DeskConfig_ok s) eqn:Hok; [|discriminate].
  intros [= <- _]. exact Hok.
Qed.

Lemma validate_each_ok (l : list PyVal) (w w' : World) (ds : list DeskBase) :
  validate_each as_desk l w = (Some ds, w') -> forallb DeskCreate_ok ds = true.
Proof.
  revert w w' ds. induction l as [|x l IH]; intros w w' ds; cbn [validate_each].
  - intros [= <- _]. reflexivity.
  - destruct (as_desk x w) as [[a|] w1] eqn:Hx.
    + destruct (validate_each as_desk l w1) as [[rs|] w2] eqn:Hl;
        [|discriminate].
      intros [= <- _]. cbn. rewrite (IH _ _ _ Hl), andb_true_r.
      destruct x; try discriminate. exact (DeskBase_validate_ok _ _ Hx).
    + destruct (validate_each as_desk l w1) as [[rs|] w2]; discriminate.
Qed.

Lemma desks_field_ok (kw : Dict) (w w' : World) (ds : list DeskBase) :
  desks_field kw w = (Some ds, w') -> forallb DeskCreate_ok ds = true.
Proof.
  unfold desks_field, as_desks.
  destruct (PyDict.get "desks" kw) as [[]|]; try discriminate.
  - apply validate_each_ok.
  - intros [= <- _]. reflexivity.
Qed.

Lemma ClassroomRead_validate_ok (kw : Dict) (w w' : World) (r : ClassroomRead) :
  ClassroomRead_validate kw w = (Some r, w') ->
  forallb DeskCreate_ok (cr_desks r) = true.
Proof.
  unfold ClassroomRead_validate.
  destruct (with_factory as_uuid uuid4 kw "id" w) as [i w1].
  destruct (desks_field kw w1) as [ds w2] eqn:Hd.
  destruct (with_factory as_datetime utcnow kw "created_at" w2) as [c w3].
  destruct (with_factory as_datetime utcnow kw "updated_at" w3) as [m w4].
  destruct i, (required as_str kw "room_no"), (required as_str kw "building"),
    (defaulted as_opt_str None kw "university"), ds, c, m; try discriminate.
  intros [= <- _]. cbn. exact (desks_field_ok _ _ Hd).
Qed.

(** A list of desks with one that has a hand configuration outside the
    pattern does not validate. *)
Lemma validate_each_bad (l : list PyVal) (dkw : Dict) (s : string) (w : World) :
  In (VDict dkw) l ->
  PyDict.get "hand_config" dkw = Some (VStr s) ->
  DeskConfig_ok s = false ->
  fst (validate_each as_desk l w) = None.
Proof.
  intros Hin Hg Hbad. revert w.
  induction l as [|x l IH]; intros w; [destruct Hin|].
  cbn [validate_each].
  destruct Hin as [->|Hin].
  - cbn [as_desk].
    pose proof (DeskBase_validate_bad_config dkw w Hg Hbad) as Hv.
    destruct (DeskBase_validate dkw w) as [a w1]. cbn in Hv. subst a.
    destruct (validate_each as_desk l w1). reflexivity.
  - destruct (as_desk x w) as [a w1].
    pose proof (IH Hin w1) as Hl.
    destruct (validate_each as_desk l w1) as [rs w2]. cbn in Hl. subst rs.
    destruct a; reflexivity.
Qed.

Lemma ClassroomBase_validate_draws (kw : Dict) (w : World) :
  only_draws w (snd (ClassroomBase_validate kw w)).
Proof.
  unfold ClassroomBase_validate.
  assert (Hid : only_draws w (snd (with_factory as_uuid uuid4 kw "id" w))).
  { unfold with_factory, uuid4.
    destruct (PyDict.get "id" kw); cbn; repeat split. }
  destruct (with_factory as_uuid uuid4 kw "id" w) as [i w1]. cbn [snd] in Hid.
  pose proof (desks_field_draws kw w1) as Hd.
  destruct (desks_field kw w1) as [ds w2]. cbn [snd] in *.
  eapply only_draws_trans; eassumption.
Qed.

Lemma ClassroomUpdate_validate_draws (kw : Dict) (w : World) :
  only_draws w (snd (ClassroomUpdate_validate kw w)).
Proof.
  unfold ClassroomUpdate_validate, as_opt_desks, as_desks.
  destruct (PyDict.get "desks" kw) as [[| | | | | |l|]|];
    try apply only_draws_refl.
  pose proof (validate_each_draws l w) as Hd.
  destruct (validate_each as_desk l w) as [[ds|] w1]; exact Hd.
Qed.

(** Building a [ClassroomRead] reads the clock and draws identifiers, and
    leaves both stores alone. *)
Lemma ClassroomRead_validate_draws_only (kw : Dict) (w w1 : World)
    (res : option ClassroomRead) :
  ClassroomRead_validate kw w = (res, w1) ->
  classrooms w1 = classrooms w /\ desks w1 = desks w.
Proof.
  unfold ClassroomRead_validate.
  assert (Hid : only_draws w (snd (with_factory as_uuid uuid4 kw "id" w))).
  { unfold with_factory, uuid4.
    destruct (PyDict.get "id" kw); cbn; repeat split. }
  destruct (with_factory as_uuid uuid4 kw "id" w) as [i w2]. cbn [snd] in Hid.
  pose proof (desks_field_draws kw w2) as Hd.
  destruct (desks_field kw w2) as [ds w3]. cbn [snd] in Hd.
  destruct Hid as (A1 & A2 & _), Hd as (B1 & B2 & _).
  unfold with_factory, utcnow.
  destruct (PyDict.get "created_at" kw), (PyDict.get "updated_at" kw);
    intros [= _ <-]; cbn; split; congruence.
Qed.

(** [update_classroom] on a stored id, in one step: the dump of the stored
    record, updated with the dump of the patch, goes through
    [ClassroomRead]. *)
Lemma update_classroom_eq (classroom_id : UUID) (u : ClassroomUpdate) (w : World) :
  update_classroom classroom_id u w =
  match PyDict.get classroom_id (classrooms w) with
  | None => (Raise (HTTPException 404 "Classroom not found"), w)
  | Some cur =>
      match ClassroomRead_validate
              (PyDict.update (ClassroomRead_dump cur) (ClassroomUpdate_dump_set u))
              w with
      | (Some r, w1) =>
          (Ok r, with_classrooms w1 (PyDict.set classroom_id r (classrooms w1)))
      | (None, w1) => (Raise ValidationError, w1)
      end
  end.
Proof.
  unfold update_classroom, bind, the_classrooms, classrooms_getitem, getitem,
    PyDict.mem.
  destruct (PyDict.get classroom_id (classrooms w)) as [cur|] eqn:Hget;
    [|reflexivity].
  cbn. rewrite Hget. cbn. unfold construct.
  destruct (ClassroomRead_validate _ w) as [[r|] w1]; [|reflexivity].
  cbn. rewrite get_set_same. reflexivity.
Qed.

(** ** What one request does to a store *)

Lemma Forall_set_key {K V} `{EqKey K} (P : K * V -> Prop) (k : K) (v : V)
    (d : list (K * V)) :
  Forall P d -> P (k, v) -> Forall P (PyDict.set k v d).
Proof.
  intros Hd Hv. induction Hd as [|[k' v'] d Hx Hd IH]; simpl.
  - constructor; auto.
  - destruct (keqb_spec k k') as [->|Hk]; constructor; auto.
Qed.

(** A request leaves the desks store alone, assigns one record with a valid
    hand configuration to a key (the record's own id, or the id of the
    record it replaces there), or deletes a key. *)
Lemma step_desks_shape (w : World) (r : Request) :
  desks (step w r) = desks w
  \/ (exists k v,
        desks (step w r) = PyDict.set k v (desks w)
        /\ DeskConfig_ok (dr_hand_config v) = true
        /\ (dr_id v = k
            \/ exists cur, PyDict.get k (desks w) = Some cur
                           /\ dr_id v = dr_id cur))
  \/ (exists k, desks (step w r) = PyDict.del k (desks w)).
Proof.
  destruct (is_classroom_request r) eqn:Hc.
  { left. now apply step_frame. }
  destruct r as [d|l h|i|i u|i d|i|c|r b u l h|i|i u|i c|i|];
    try discriminate; unfold step, after.
  - rewrite create_desk_eq.
    destruct (PyDict.mem (db_id d) (desks w)); [now left|].
    destruct (DeskConfig_ok (db_hand_config d)) eqn:Hok; [|now left].
    right. left. eexists. eexists. split; [reflexivity|]. cbn. auto.
  - now left.
  - rewrite get_desk_eq. destruct (PyDict.get i (desks w)); now left.
  - rewrite update_desk_eq.
    destruct (PyDict.get i (desks w)) as [cur|] eqn:Hget; [|now left].
    destruct (patched_desk cur u) as [v|] eqn:Hp; [|now left].
    right. left. exists i, v. split; [reflexivity|].
    unfold patched_desk in Hp.
    destruct (patched_str (dr_label cur) (du_label u)) as [l'|];
      [|discriminate].
    destruct (patched_str (dr_hand_config cur) (du_hand_config u)) as [h'|];
      [|discriminate].
    destruct (DeskConfig_ok h') eqn:Hok; [|discriminate].
    injection Hp as <-. cbn. eauto.
  - rewrite replace_desk_eq.
    destruct (PyDict.get i (desks w)),
      (DeskConfig_ok (db_hand_config d)) eqn:Hok; try now left.
    + right. left. eexists. eexists. split; [reflexivity|]. cbn. auto.
    + right. left. eexists. eexists. split; [reflexivity|]. cbn. auto.
  - rewrite delete_desk_eq.
    destruct (PyDict.get i (desks w)); [|now left].
    right. right. now exists i.
  - now left.
Qed.

Lemma step_classrooms_shape (w : World) (r : Request) :
  classrooms (step w r) = classrooms w
  \/ (exists k v,
        classrooms (step w r) = PyDict.set k v (classrooms w)
        /\ forallb DeskCreate_ok (cr_desks v) = true
        /\ (cr_id v = k
            \/ exists cur, PyDict.get k (classrooms w) = Some cur
                           /\ cr_id v = cr_id cur))
  \/ (exists k, classrooms (step w r) = PyDict.del k (classrooms w)).
Proof.
  destruct (is_desk_request r) eqn:Hd.
  { left. now apply step_frame. }
  destruct r as [d|l h|i|i u|i d|i|c|r b u l h|i|i u|i c|i|];
    try discriminate; unfold step, after.
  - rewrite create_classroom_eq.
    destruct (ClassroomCreate_ok c) eqn:Hok; [|now left].
    right. left. eexists. eexists. split; [reflexivity|]. cbn.
    split; [|now left].
    unfold ClassroomCreate_ok in Hok. clear - Hok.
    induction (cb_desks c) as [|x l IH]; [reflexivity|].
    cbn in *. apply andb_true_iff in Hok as [Hx Hl].
    rewrite (IH Hl), andb_true_r. exact Hx.
  - rewrite list_classrooms_world. now left.
  - rewrite get_classrooom_eq. destruct (PyDict.get i (classrooms w)); now left.
  - rewrite update_classroom_eq.
    pose proof (update_classroom_effect i u w) as He.
    destruct (PyDict.get i (classrooms w)) as [cur|] eqn:Hget; [|now left].
    rewrite update_classroom_eq, Hget in He.
    destruct (ClassroomRead_validate _ w) as [[v|] w1] eqn:Hv.
    + destruct He as (w1' & _ & [He | (v' & He & E1 & _)]); [discriminate|].
      injection He as <- _.
      pose proof (ClassroomRead_validate_draws_only _ _ Hv) as (D1 & _).
      right. left. exists i, v. cbn. rewrite D1.
      split; [reflexivity|]. split; [exact (ClassroomRead_validate_ok _ _ Hv)|].
      right. eauto.
    + pose proof (ClassroomRead_validate_draws_only _ _ Hv) as (D1 & _).
      left. exact D1.
  - rewrite replace_classroom_eq.
    destruct (PyDict.get i (classrooms w)); [|now left].
    destruct (ClassroomCreate_ok c) eqn:Hok; [|now left].
    right. left. eexists. eexists. split; [reflexivity|]. cbn.
    split; [|now left].
    unfold ClassroomCreate_ok in Hok. clear - Hok.
    induction (cb_desks c) as [|x l IH]; [reflexivity|].
    cbn in *. apply andb_true_iff in Hok as [Hx Hl].
    rewrite (IH Hl), andb_true_r. exact Hx.
  - rewrite delete_classroom_eq.
    destruct (PyDict.get i (classrooms w)); [|now left].
    right. right. now exists i.
  - now left.
Qed.

Lemma configs_valid_step (w : World) (r : Request) :
  configs_valid w -> configs_valid (step w r).
Proof.
  intros [Hd Hc]. split.
  - destruct (step_desks_shape w r) as [-> | [(k & v & -> & Hv & _) | (k & ->)]].
    + exact Hd.
    + now apply (Forall_set (fun v => DeskConfig_ok (dr_hand_config v) = true)).
    + now apply Forall_del.
  - destruct (step_classrooms_shape w r)
      as [-> | [(k & v & -> & Hv & _) | (k & ->)]].
    + exact Hc.
    + now apply (Forall_set (fun v => forallb DeskCreate_ok (cr_desks v) = true)).
    + now apply Forall_del.
Qed.

Lemma ids_agree_step (w : World) (r : Request) :
  ids_agree w -> ids_agree (step w r).
Proof.
  intros [Hd Hc]. split.
  - destruct (step_desks_shape w r)
      as [-> | [(k & v & -> & _ & Hid) | (k & ->)]].
    + exact Hd.
    + apply Forall_set_key; [exact Hd|]. cbn.
      destruct Hid as [Hid | (cur & Hget & Hid)]; [exact Hid|].
      rewrite Hid. clear - Hd Hget.
      induction Hd as [|[k' v'] d Hx Hd IH]; cbn in *; [discriminate|].
      destruct (N.eqb_spec k k') as [->|Hk]; [|auto].
      injection Hget as <-. exact Hx.
    + now apply Forall_del.
  - destruct (step_classrooms_shape w r)
      as [-> | [(k & v & -> & _ & Hid) | (k & ->)]].
    + exact Hc.
    + apply Forall_set_key; [exact Hc|]. cbn.
      destruct Hid as [Hid | (cur & Hget & Hid)]; [exact Hid|].
      rewrite Hid. clear - Hc Hget.
      induction Hc as [|[k' v'] d Hx Hc IH]; cbn in *; [discriminate|].
      destruct (N.eqb_spec k k') as [->|Hk]; [|auto].
      injection Hget as <-. exact Hx.
    + now apply Forall_del.
Qed.

(** X9.  After any history of requests on stores that started empty, every
    stored desk and every desk embedded in a stored classroom has the hand
    configuration Left or Right. *)
Theorem stored_hand_configs_are_valid (w : World) (rs : list Request) :
  desks w = [] ->
  classrooms w = [] ->
  configs_valid (run w rs).
Proof.
  intros Hd Hc.
  assert (Hw : configs_valid w) by (split; [rewrite Hd|rewrite Hc]; constructor).
  clear Hd Hc. revert w Hw.
  induction rs as [|r rs IH]; intros w Hw; [exact Hw|].
  apply IH. now apply configs_valid_step.
Qed.

(** X10.  After any history of requests on stores that started empty, every
    record is stored under its own id: what [get_desk] and [get_classrooom]
    return for an id carries that id. *)
Theorem records_are_stored_under_their_id
    (w : World) (rs : list Request) (k : UUID) :
  desks w = [] ->
  classrooms w = [] ->
  (forall r, fst (get_desk k (run w rs)) = Ok r -> dr_id r = k)
  /\ (forall r, fst (get_classrooom k (run w rs)) = Ok r -> cr_id r = k).
Proof.
  intros Hd Hc.
  assert (Hw : ids_agree (run w rs)).
  { assert (Hw : ids_agree w)
      by (split; [rewrite Hd|rewrite Hc]; constructor).
    clear Hd Hc. revert w Hw.
    induction rs as [|r rs IH]; intros w Hw; [exact Hw|].
    apply IH. now apply ids_agree_step. }
  destruct Hw as [Hds Hcs]. split; intros r.
  - rewrite get_desk_eq.
    destruct (PyDict.get k (desks (run w rs))) as [x|] eqn:Hget;
      [|discriminate].
    intros [= <-]. clear - Hds Hget.
    induction Hds as [|[k' v'] d Hx Hds IH]; cbn in *; [discriminate|].
    destruct (N.eqb_spec k k') as [->|Hk]; [|auto].
    injection Hget as <-. exact Hx.
  - rewrite get_classrooom_eq.
    destruct (PyDict.get k (classrooms (run w rs))) as [x|] eqn:Hget;
      [|discriminate].
    intros [= <-]. clear - Hcs Hget.
    induction Hcs as [|[k' v'] d Hx Hcs IH]; cbn in *; [discriminate|].
    destruct (N.eqb_spec k k') as [->|Hk]; [|auto].
    injection Hget as <-. exact Hx.
Qed.

(** X11.  A request whose handler raises, whatever the exception, leaves
    both stores exactly as they were. *)
Theorem failed_request_changes_no_store (w : World) (r : Request) :
  request_fails w r = true ->
  desks (step w r) = desks w /\ classrooms (step w r) = classrooms w.
Proof.
  destruct r as [d|l h|i|i u|i d|i|c|r b u l h|i|i u|i c|i|];
    unfold request_fails, raises, step, after.
  - rewrite create_desk_eq.
    destruct (PyDict.mem (db_id d) (desks w)),
      (DeskConfig_ok (db_hand_config d)); try discriminate; now split.
  - now split.
  - rewrite get_desk_eq. destruct (PyDict.get i (desks w)); now split.
  - rewrite update_desk_eq.
    destruct (PyDict.get i (desks w)) as [cur|]; [|now split].
    destruct (patched_desk cur u); [discriminate|now split].
  - rewrite replace_desk_eq.
    destruct (PyDict.get i (desks w)), (DeskConfig_ok (db_hand_config d));
      try discriminate; now split.
  - rewrite delete_desk_eq.
    destruct (PyDict.get i (desks w)); [discriminate|now split].
  - rewrite create_classroom_eq.
    destruct (ClassroomCreate_ok c); [discriminate|now split].
  - rewrite list_classrooms_world. now split.
  - rewrite get_classrooom_eq.
    destruct (PyDict.get i (classrooms w)); now split.
  - rewrite update_classroom_eq.
    destruct (PyDict.get i (classrooms w)) as [cur|]; [|now split].
    destruct (ClassroomRead_validate _ w) as [[v|] w1] eqn:Hv;
      [discriminate|].
    intros _. cbn [snd].
    destruct (ClassroomRead_validate_draws_only _ _ Hv). now split.
  - rewrite replace_classroom_eq.
    destruct (PyDict.get i (classrooms w)); [|now split].
    destruct (ClassroomCreate_ok c); [discriminate|now split].
  - rewrite delete_classroom_eq.
    destruct (PyDict.get i (classrooms w)); [discriminate|now split].
  - discriminate.
Qed.

(** X12.  The two [list] and the two [get] handlers change nothing at all:
    the world after them is the world before. *)
Theorem reads_change_nothing (w : World) (r : Request) :
  is_read_request r = true -> step w r = w.
Proof.
  destruct r as [d|l h|i|i u|i d|i|c|r b u l h|i|i u|i c|i|];
    try discriminate; intros _; unfold step, after.
  - reflexivity.
  - rewrite get_desk_eq. destruct (PyDict.get i (desks w)); reflexivity.
  - apply list_classrooms_world.
  - rewrite get_classrooom_eq.
    destruct (PyDict.get i (classrooms w)); reflexivity.
Qed.

(** X13.  No classroom request writes the desks store and no desk request
    writes the classrooms store. *)
Theorem requests_write_their_own_store (w : World) (r : Request) :
  (is_classroom_request r = true -> desks (step w r) = desks w)
  /\ (is_desk_request r = true -> classrooms (step w r) = classrooms w).
Proof. exact (step_frame w r). Qed.

(** X14.  A stored desk stays stored, with the creation time it has,
    through every request except the deletion of its own key: a second
    creation under its id, a patch and a replacement all leave [created_at]
    as it was. *)
Theorem desk_created_at_is_fixed
    (w : World) (r : Request) (k : UUID) (cur : DeskRead) :
  PyDict.get k (desks w) = Some cur ->
  r <> DeleteDesk k ->
  exists cur', PyDict.get k (desks (step w r)) = Some cur'
               /\ dr_created_at cur' = dr_created_at cur.
Proof.
  intros Hk Hr.
  destruct (is_classroom_request r) eqn:Hc.
  { rewrite (proj1 (step_frame w r) Hc). eauto. }
  destruct r as [d|l h|i|i u|i d|i|c|r b u l h|i|i u|i c|i|];
    try discriminate; unfold step, after.
  - rewrite create_desk_eq.
    destruct (PyDict.mem (db_id d) (desks w)) eqn:Hmem; [eauto|].
    destruct (DeskConfig_ok (db_hand_config d)); [|eauto].
    cbn [snd desks with_desks with_ticks].
    rewrite get_set_other; [eauto|].
    intros ->. unfold PyDict.mem in Hmem. now rewrite Hk in Hmem.
  - eauto.
  - rewrite get_desk_eq. destruct (PyDict.get i (desks w)); eauto.
  - rewrite update_desk_eq.
    destruct (PyDict.get i (desks w)) as [stored|] eqn:Hget; [|eauto].
    destruct (patched_desk stored u) as [v|] eqn:Hp; [|eauto].
    cbn [snd desks with_desks].
    destruct (N.eq_dec k i) as [->|Hne];
      [|rewrite get_set_other by exact Hne; eauto].
    rewrite get_set_same. exists v. split; [reflexivity|].
    rewrite Hget in Hk. injection Hk as ->.
    unfold patched_desk in Hp.
    destruct (patched_str (dr_label cur) (du_label u)) as [l'|];
      [|discriminate].
    destruct (patched_str (dr_hand_config cur) (du_hand_config u)) as [h'|];
      [|discriminate].
    destruct (DeskConfig_ok h'); [|discriminate].
    injection Hp as <-. reflexivity.
  - rewrite replace_desk_eq.
    destruct (N.eq_dec k i) as [->|Hne].
    + rewrite Hk. destruct (DeskConfig_ok (db_hand_config d)); [|eauto].
      cbn [snd desks with_desks with_ticks]. rewrite get_set_same.
      eexists. split; reflexivity.
    + destruct (PyDict.get i (desks w)),
        (DeskConfig_ok (db_hand_config d));
        cbn [snd desks with_desks with_ticks];
        rewrite ?get_set_other by exact Hne; eauto.
  - rewrite delete_desk_eq.
    destruct (PyDict.get i (desks w)); [|eauto].
    cbn [snd desks with_desks].
    rewrite get_del_other; [eauto|]. intros ->. now apply Hr.
  - cbn. eauto.
Qed.

(** X7.  A classroom body whose list of desks holds a desk with a hand
    configuration outside the pattern never reaches a handler: [POST
    /classrooms], [PUT /classrooms/{id}] and [PATCH /classrooms/{id}] answer
    with the validation error of the framework and leave both stores and
    the clock as they were. *)
Theorem classroom_body_with_bad_desk_rejected
    (classroom_id : UUID) (kw : Dict) (l : list PyVal) (dkw : Dict)
    (s : string) (w : World) :
  PyDict.get "desks" kw = Some (VList l) ->
  In (VDict dkw) l ->
  PyDict.get "hand_config" dkw = Some (VStr s) ->
  DeskConfig_ok s = false ->
  exists w1 w2,
    post_classrooms (VDict kw) w = (Raise RequestValidationError, w1)
    /\ put_classroom classroom_id (VDict kw) w = (Raise RequestValidationError, w1)
    /\ patch_classroom classroom_id (VDict kw) w = (Raise RequestValidationError, w2)
    /\ only_draws w w1 /\ only_draws w w2.
Proof.
  intros Hd Hin Hg Hbad.
  assert (Hb : fst (ClassroomBase_validate kw w) = None).
  { unfold ClassroomBase_validate.
    destruct (with_factory as_uuid uuid4 kw "id" w) as [i w1].
    unfold desks_field, as_desks. rewrite Hd.
    pose proof (@validate_each_bad l dkw s w1 Hin Hg Hbad) as Hv.
    destruct (validate_each as_desk l w1) as [ds w2]. cbn in Hv. subst ds.
    destruct i, (required as_str kw "room_no"),
      (required as_str kw "building"),
      (defaulted as_opt_str None kw "university"); reflexivity. }
  assert (Hu : fst (ClassroomUpdate_validate kw w) = None).
  { unfold ClassroomUpdate_validate, as_opt_desks, as_desks. rewrite Hd.
    pose proof (@validate_each_bad l dkw s w Hin Hg Hbad) as Hv.
    destruct (validate_each as_desk l w) as [ds w2]. cbn in Hv. subst ds.
    destruct (settable as_opt_str kw "room_no"),
      (settable as_opt_str kw "building"),
      (settable as_opt_str kw "university"); reflexivity. }
  pose proof (ClassroomBase_validate_draws kw w) as Hbd.
  pose proof (ClassroomUpdate_validate_draws kw w) as Hud.
  unfold post_classrooms, put_classroom, patch_classroom, bind, from_body.
  destruct (ClassroomBase_validate kw w) as [rb w1],
    (ClassroomUpdate_validate kw w) as [ru w2].
  cbn in Hb, Hu, Hbd, Hud. subst rb ru. exists w1, w2. auto.
Qed.

(** X15.  In a world reached from empty stores, deleting a stored desk
    succeeds, the next [get_desk] of that id answers 404, and every other
    desk and the classrooms store are as before. *)
Theorem deleted_desk_is_gone
    (w0 : World) (rs : list Request) (desk_id : UUID) :
  desks w0 = [] ->
  classrooms w0 = [] ->
  PyDict.mem desk_id (desks (run w0 rs)) = true ->
  exists w',
    delete_desk desk_id (run w0 rs)
    = (Ok [("confirmation", VStr "Desk deleted successfully")], w')
    /\ get_desk desk_id w' = (Raise (HTTPException 404 "Desk not found"), w')
    /\ classrooms w' = classrooms (run w0 rs)
    /\ forall k, k <> desk_id ->
         PyDict.get k (desks w') = PyDict.get k (desks (run w0 rs)).
Proof.
  intros Hd Hc Hmem.
  assert (Hu : keys_unique (run w0 rs)).
  { apply keys_unique_run. split; [rewrite Hd|rewrite Hc]; constructor. }
  destruct Hu as [Hu _]. rewrite delete_desk_eq.
  unfold PyDict.mem in Hmem.
  destruct (PyDict.get desk_id (desks (run w0 rs))); [|discriminate].
  eexists. split; [reflexivity|].
  rewrite get_desk_eq. cbn [desks classrooms with_desks].
  rewrite get_del_same by exact Hu. repeat split.
  intros k Hk. now apply get_del_other.
Qed.

(** X16.  The same for classrooms: in a world reached from empty stores,
    deleting a stored classroom succeeds, the next [get_classrooom] of that
    id answers 404, and every other classroom and the desks store are as
    before. *)
Theorem deleted_classroom_is_gone
    (w0 : World) (rs : list Request) (classroom_id : UUID) :
  desks w0 = [] ->
  classrooms w0 = [] ->
  PyDict.mem classroom_id (classrooms (run w0 rs)) = true ->
  exists w',
    delete_classroom classroom_id (run w0 rs)
    = (Ok [("confirmation", VStr "Classroom deleted successfully")], w')
    /\ get_classrooom classroom_id w'
       = (Raise (HTTPException 404 "Classroom not found"), w')
    /\ desks w' = desks (run w0 rs)
    /\ forall k, k <> classroom_id ->
         PyDict.get k (classrooms w') = PyDict.get k (classrooms (run w0 rs)).
Proof.
  intros Hd Hc Hmem.
  assert (Hu : keys_unique (run w0 rs)).
  { apply keys_unique_run. split; [rewrite Hd|rewrite Hc]; constructor. }
  destruct Hu as [_ Hu]. rewrite delete_classroom_eq.
  unfold PyDict.mem in Hmem.
  destruct (PyDict.get classroom_id (classrooms (run w0 rs))); [|discriminate].
  eexists. split; [reflexivity|].
  rewrite get_classrooom_eq. cbn [desks classrooms with_classrooms].
  rewrite get_del_same by exact Hu. repeat split.
  intros k Hk. now apply get_del_other.
Qed.

(** X17.  [replace_classroom] on a stored id, with a body whose desks are
    well formed: room number, building, university and desks are taken
    from the body, the id from the path, [created_at] from the stored
    record and [updated_at] from the clock; the record takes the place of
    the stored one, and the desks store is left alone. *)
Theorem replace_classroom_on_stored_id
    (classroom_id : UUID) (c : ClassroomCreate) (stored : ClassroomRead)
    (w : World) :
  PyDict.get classroom_id (classrooms w) = Some stored ->
  ClassroomCreate_ok c = true ->
  let r := {| cr_id := classroom_id; cr_room_no := cb_room_no c;
              cr_building := cb_building c;
              cr_university := cb_university c;
              cr_desks := map supplied (cb_desks c);
              cr_created_at := cr_created_at stored;
              cr_updated_at := clock w (ticks w) |} in
  replace_classroom classroom_id c w
  = (Ok (MClassroomRead r),
     with_ticks (with_classrooms w (PyDict.set classroom_id r (classrooms w)))
                (S (ticks w)))
  /\ PyDict.get classroom_id (PyDict.set classroom_id r (classrooms w)) = Some r
  /\ PyDict.keys (PyDict.set classroom_id r (classrooms w))
     = PyDict.keys (classrooms w).
Proof.
  intros Hget Hok r. rewrite replace_classroom_eq, Hget, Hok.
  split; [reflexivity|]. split; [apply get_set_same|].
  apply keys_set_present. unfold PyDict.mem. now rewrite Hget.
Qed.

(** X18.  A patch on a stored classroom that supplies strings for some of
    room number and building, a string or [None] for the university, and
    no desks: [update_classroom] puts the supplied fields into the stored
    record, keeps the id, the embedded desks and both timestamps, reads no
    clock and draws no identifier. *)
Theorem update_classroom_merges_supplied_fields
    (classroom_id : UUID) (room_no building : option string)
    (university : option (option string)) (cur : ClassroomRead) (w : World) :
  PyDict.get classroom_id (classrooms w) = Some cur ->
  forallb DeskCreate_ok (cr_desks cur) = true ->
  let r := {| cr_id := cr_id cur;
              cr_room_no := or_else room_no (cr_room_no cur);
              cr_building := or_else building (cr_building cur);
              cr_university := or_else university (cr_university cur);
              cr_desks := map supplied (cr_desks cur);
              cr_created_at := cr_created_at cur;
              cr_updated_at := cr_updated_at cur |} in
  update_classroom classroom_id (classroom_patch room_no building university) w
  = (Ok r, with_classrooms w (PyDict.set classroom_id r (classrooms w))).
Proof.
  intros Hget Hok r. rewrite update_classroom_eq, Hget.
  unfold ClassroomRead_validate, classroom_patch, ClassroomUpdate_dump_set,
    ClassroomRead_dump.
  destruct room_no as [rn|], building as [b|], university as [[un|]|];
    cbn -[validate_each]; rewrite validate_each_dump, Hok;
    try reflexivity; destruct (cr_university cur); reflexivity.
Qed.

(** X20.  A patch on a stored classroom that supplies [None] for the room
    number, for the building or for the desks makes [update_classroom]
    raise the validation error of [ClassroomRead]; both stores stay as they
    were. *)
Theorem update_classroom_rejects_null_field
    (classroom_id : UUID) (u : ClassroomUpdate) (cur : ClassroomRead) (w : World) :
  PyDict.get classroom_id (classrooms w) = Some cur ->
  cu_room_no u = Some None \/ cu_building u = Some None \/ cu_desks u = Some None ->
  exists w1, update_classroom classroom_id u w = (Raise ValidationError, w1)
             /\ classrooms w1 = classrooms w /\ desks w1 = desks w.
Proof.
  intros Hget Hbad. rewrite update_classroom_eq, Hget.
  set (kw := PyDict.update (ClassroomRead_dump cur) (ClassroomUpdate_dump_set u)).
  assert (Hnd : NoDup (PyDict.keys (ClassroomUpdate_dump_set u))).
  { unfold ClassroomUpdate_dump_set.
    destruct (cu_room_no u), (cu_building u), (cu_university u),
      (cu_desks u) as [[]|]; cbn;
      repeat (constructor; [cbn; intuition discriminate|]); constructor. }
  assert (Hnone : fst (ClassroomRead_validate kw w) = None).
  { unfold ClassroomRead_validate.
    destruct (with_factory as_uuid uuid4 kw "id" w) as [i w1].
    destruct Hbad as [Hb | [Hb | Hb]].
    - assert (Hr : required as_str kw "room_no" = None).
      { unfold required, kw.
        rewrite (@get_update_present _ _ _ "room_no" VNone);
          [reflexivity | exact Hnd |].
        unfold ClassroomUpdate_dump_set. rewrite Hb. reflexivity. }
      rewrite Hr.
      destruct (desks_field kw w1) as [ds w2].
      destruct (with_factory as_datetime utcnow kw "created_at" w2) as [c w3].
      destruct (with_factory as_datetime utcnow kw "updated_at" w3) as [m w4].
      destruct i; reflexivity.
    - assert (Hr : required as_str kw "building" = None).
      { unfold required, kw.
        rewrite (@get_update_present _ _ _ "building" VNone);
          [reflexivity | exact Hnd |].
        unfold ClassroomUpdate_dump_set. rewrite Hb.
        destruct (cu_room_no u); reflexivity. }
      rewrite Hr.
      destruct (desks_field kw w1) as [ds w2].
      destruct (with_factory as_datetime utcnow kw "created_at" w2) as [c w3].
      destruct (with_factory as_datetime utcnow kw "updated_at" w3) as [m w4].
      destruct i, (required as_str kw "room_no"); reflexivity.
    - assert (Hr : desks_field kw w1 = (None, w1)).
      { unfold desks_field, kw.
        rewrite (@get_update_present _ _ _ "desks" VNone);
          [reflexivity | exact Hnd |].
        unfold ClassroomUpdate_dump_set. rewrite Hb.
        destruct (cu_room_no u), (cu_building u), (cu_university u);
          reflexivity. }
      rewrite Hr.
      destruct (with_factory as_datetime utcnow kw "created_at" w1) as [c w3].
      destruct (with_factory as_datetime utcnow kw "updated_at" w3) as [m w4].
      destruct i, (required as_str kw "room_no"),
        (required as_str kw "building"),
        (defaulted as_opt_str None kw "university"); reflexivity. }
  destruct (ClassroomRead_validate kw w) as [res w1] eqn:Hv.
  cbn in Hnone. subst res. exists w1. split; [reflexivity|].
  exact (ClassroomRead_validate_draws_only _ _ Hv).
Qed.

(** Desks dumped without their unset fields validate again: labels and
    hand configurations come back in order, a supplied id is kept, a
    missing one is drawn. *)
Lemma validate_each_dump_set (l : list DeskBase) (w : World) :
  forallb DeskCreate_ok l = true ->
  exists ds w1,
    validate_each as_desk (map (fun d => VDict (DeskBase_dump_set d)) l) w
    = (Some ds, w1)
    /\ only_draws w w1
    /\ map db_label ds = map db_label l
    /\ map db_hand_config ds = map db_hand_config l
    /\ Forall2 (fun d d' => db_id_set d' = db_id_set d
                            /\ (db_id_set d = true -> db_id d' = db_id d)) l ds.
Proof.
  revert w. induction l as [|d l IH]; intros w Hok.
  - exists [], w. repeat split; constructor.
  - cbn in Hok. apply andb_true_iff in Hok as [Hd Hl].
    unfold DeskCreate_ok in Hd. cbn [map validate_each].
    assert (Hx : exists a w1,
               as_desk (VDict (DeskBase_dump_set d)) w = (Some a, w1)
               /\ only_draws w w1
               /\ db_label a = db_label d
               /\ db_hand_config a = db_hand_config d
               /\ db_id_set a = db_id_set d
               /\ (db_id_set d = true -> db_id a = db_id d)).
    { unfold as_desk, DeskBase_validate, DeskBase_dump_set, with_factory,
        required, uuid4.
      destruct (db_id_set d); cbn; rewrite Hd; eexists; eexists;
        (split; [reflexivity|]); cbn; repeat split; auto; discriminate. }
    destruct Hx as (a & w1 & -> & Hd1 & Ea & Eb & Ec & Ed).
    destruct (IH w1 Hl) as (ds & w2 & -> & Hd2 & Fa & Fb & Fc).
    exists (a :: ds), w2. split; [reflexivity|].
    split; [eapply only_draws_trans; eassumption|].
    cbn. rewrite Ea, Eb, Fa, Fb. repeat split. constructor; auto.
Qed.

(** X19.  A patch on a stored classroom that supplies a list of well-formed
    desks and nothing else replaces the embedded list as a whole: the new
    list has the labels and hand configurations of the supplied one, in
    order, keeps the ids that were supplied, and nothing of the old list
    remains; id, room number, building, university and both timestamps are
    kept, and the desks store is left alone. *)
Theorem update_classroom_replaces_desks
    (classroom_id : UUID) (l : list DeskBase) (cur : ClassroomRead) (w : World) :
  PyDict.get classroom_id (classrooms w) = Some cur ->
  forallb DeskCreate_ok l = true ->
  exists r w1,
    update_classroom classroom_id (desks_patch l) w
    = (Ok r, with_classrooms w1 (PyDict.set classroom_id r (classrooms w)))
    /\ only_draws w w1
    /\ cr_id r = cr_id cur
    /\ cr_room_no r = cr_room_no cur
    /\ cr_building r = cr_building cur
    /\ cr_university r = cr_university cur
    /\ cr_created_at r = cr_created_at cur
    /\ cr_updated_at r = cr_updated_at cur
    /\ map db_label (cr_desks r) = map db_label l
    /\ map db_hand_config (cr_desks r) = map db_hand_config l
    /\ Forall2 (fun d d' => db_id_set d' = db_id_set d
                            /\ (db_id_set d = true -> db_id d' = db_id d))
               l (cr_desks r).
Proof.
  intros Hget Hok. rewrite update_classroom_eq, Hget.
  destruct (validate_each_dump_set l w Hok)
    as (ds & w1 & Hv & Hd & Fa & Fb & Fc).
  unfold ClassroomRead_validate, desks_patch, ClassroomUpdate_dump_set,
    ClassroomRead_dump, dump_desks_set.
  cbn -[validate_each]. rewrite Hv.
  pose proof Hd as (D1 & _).
  destruct (cr_university cur) as [un|] eqn:Hun; cbn; rewrite D1;
    eexists; exists w1; (split; [reflexivity|]); (split; [exact Hd|]);
    cbn; repeat (split; [solve [auto]|]); exact Fc.
Qed.

Lemma filter_filter {A} (f g : A -> bool) (l : list A) :
  filter g (filter f l) = filter (fun a => f a && g a) l.
Proof.
  induction l as [|a l IH]; [reflexivity|]. cbn.
  destruct (f a); cbn; [destruct (g a)|]; now rewrite IH.
Qed.

(** X21.  [list_desks] returns, in the order of the store, exactly the
    stored desks that pass every supplied filter: a record is listed when
    its label equals the label filter, if one is supplied, and its hand
    configuration equals the hand configuration filter, if one is
    supplied.  The world is left as it is. *)
Theorem list_desks_keeps_matching_records
    (label hand_config : option string) (w : World) :
  list_desks label hand_config w
  = (Ok (filter (desk_wanted label hand_config) (PyDict.values (desks w))), w)
  /\ forall a,
       In a (filter (desk_wanted label hand_config) (PyDict.values (desks w)))
       <-> In a (PyDict.values (desks w))
           /\ (forall s, label = Some s -> dr_label a = s)
           /\ (forall s, hand_config = Some s -> dr_hand_config a = s).
Proof.
  split.
  - unfold list_desks, bind, the_desks, ret, desk_wanted, wanted.
    destruct label as [l|], hand_config as [h|]; cbn.
    + now rewrite filter_filter.
    + do 2 f_equal. apply filter_ext. intros a. now rewrite andb_true_r.
    + reflexivity.
    + do 2 f_equal. induction (PyDict.values (desks w)) as [|a x IH];
        [reflexivity|]. cbn. now rewrite <- IH.
  - intros a. rewrite filter_In. unfold desk_wanted, wanted.
    rewrite andb_true_iff.
    split; intros (Hin & H1 & H2); (split; [exact Hin|]).
    + split; intros s ->; now apply String.eqb_eq.
    + split.
      * destruct label as [s|]; [|reflexivity]. apply String.eqb_eq. auto.
      * destruct hand_config as [s|]; [|reflexivity]. apply String.eqb_eq. auto.
Qed.

(** X22.  What [model_dump] writes, the model class reads back: a desk
    payload and a stored desk with a valid hand configuration come back as
    they are (the payload with its id counted as supplied), no clock is
    read and no identifier drawn. *)
Theorem desk_models_survive_dump (d : DeskBase) (r : DeskRead) (w : World) :
  DeskCreate_ok d = true ->
  DeskConfig_ok (dr_hand_config r) = true ->
  DeskBase_validate (DeskBase_dump d) w = (Some (supplied d), w)
  /\ DeskRead_validate (DeskRead_dump r) w = (Some r, w).
Proof.
  unfold DeskCreate_ok. intros Hd Hr. split.
  - unfold DeskBase_validate, DeskBase_dump, supplied. cbn. now rewrite Hd.
  - unfold DeskRead_validate, DeskRead_dump. cbn. rewrite Hr.
    destruct r; reflexivity.
Qed.

(** X23.  The same for classrooms: a classroom payload and a stored
    classroom whose embedded desks have valid hand configurations come back
    from their dump with the same fields, the embedded ids counted as
    supplied. *)
Theorem classroom_models_survive_dump
    (c : ClassroomBase) (r : ClassroomRead) (w : World) :
  ClassroomCreate_ok c = true ->
  forallb DeskCreate_ok (cr_desks r) = true ->
  ClassroomBase_validate (ClassroomBase_dump c) w
  = (Some {| cb_id := cb_id c; cb_room_no := cb_room_no c;
             cb_building := cb_building c; cb_university := cb_university c;
             cb_desks := map supplied (cb_desks c) |}, w)
  /\ ClassroomRead_validate (ClassroomRead_dump r) w
     = (Some {| cr_id := cr_id r; cr_room_no := cr_room_no r;
                cr_building := cr_building r; cr_university := cr_university r;
                cr_desks := map supplied (cr_desks r);
                cr_created_at := cr_created_at r;
                cr_updated_at := cr_updated_at r |}, w).
Proof.
  unfold ClassroomCreate_ok. intros Hc Hr. split.
  - unfold ClassroomBase_validate, ClassroomBase_dump, desks_field, dump_desks,
      as_desks.
    cbn -[validate_each]. rewrite validate_each_dump, Hc.
    destruct (cb_university c); reflexivity.
  - unfold ClassroomRead_validate, ClassroomRead_dump, desks_field, dump_desks,
      as_desks.
    cbn -[validate_each]. rewrite validate_each_dump, Hr.
    destruct (cr_university r); reflexivity.
Qed.

(** X24.  [PUT /desks/{id}] twice with the same well-formed body: both
    calls succeed, the second finds the record of the first and changes
    only its update time, which becomes the next reading of the clock; the
    store has the same keys after the second call as after the first. *)
Theorem replace_desk_twice (desk_id : UUID) (desk : DeskCreate) (w : World) :
  DeskCreate_ok desk = true ->
  exists r1 w1 r2 w2,
    replace_desk desk_id desk w = (Ok r1, w1)
    /\ replace_desk desk_id desk w1 = (Ok r2, w2)
    /\ dr_id r2 = dr_id r1
    /\ dr_label r2 = dr_label r1
    /\ dr_hand_config r2 = dr_hand_config r1
    /\ dr_created_at r2 = dr_created_at r1
    /\ dr_updated_at r2 = clock w1 (ticks w1)
    /\ PyDict.keys (desks w2) = PyDict.keys (desks w1).
Proof.
  unfold DeskCreate_ok. intros Hok.
  rewrite replace_desk_eq, Hok.
  destruct (PyDict.get desk_id (desks w)) as [stored|]; cbn zeta;
    eexists; eexists; eexists; eexists; (split; [reflexivity|]);
    rewrite replace_desk_eq, Hok; cbn [desks with_desks with_ticks];
    rewrite get_set_same; cbn zeta; (split; [reflexivity|]);
    cbn; repeat split; apply keys_set_present, mem_set_same.
Qed.

(** X25.  A classroom created with well-formed desks can be read back at
    once under its id; the other classrooms and the desks store are as
    before. *)
Theorem create_classroom_then_get (c : ClassroomCreate) (w : World) :
  ClassroomCreate_ok c = true ->
  exists r w',
    create_classroom c w = (Ok r, w')
    /\ get_classrooom (cb_id c) w' = (Ok r, w')
    /\ desks w' = desks w
    /\ forall k, k <> cb_id c ->
         PyDict.get k (classrooms w') = PyDict.get k (classrooms w).
Proof.
  intros Hok. rewrite create_classroom_eq, Hok. cbn zeta.
  eexists. eexists. split; [reflexivity|].
  rewrite get_classrooom_eq. cbn [desks classrooms with_classrooms with_ticks].
  rewrite get_set_same. repeat split.
  intros k Hk. now apply get_set_other.
Qed.

End Service.

(** * The claims at the sample data *)

(** C5, against the statement as it is worded.  A desk and a classroom
    created under free ids each carry two different timestamps: the first
    and the second reading of the clock, not one value. *)
Lemma create_not_as_stated :
  (PyDict.mem (db_id desk_12H) (desks fresh_world) = false
   /\ exists r w',
        create_desk hex_uuid desk_12H fresh_world = (Ok r, w')
        /\ dr_created_at r = 1000
        /\ dr_updated_at r = 1001
        /\ dr_created_at r <> dr_updated_at r)
  /\ (PyDict.mem (cb_id classroom_502) (classrooms fresh_world) = false
      /\ exists r w',
           create_classroom hex_uuid classroom_502 fresh_world = (Ok r, w')
           /\ cr_created_at r = 1000
           /\ cr_updated_at r = 1001
           /\ cr_created_at r <> cr_updated_at r).
Proof.
  split; (split; [reflexivity|]); eexists; eexists;
    (split; [reflexivity|]); cbn; repeat split; discriminate.
Qed.

(** C5 at a desk and a classroom of the sample data: the desk goes behind
    the one already stored, the classroom into the empty classrooms store,
    each with the readings 1002 and 1003 of the clock. *)
Lemma create_stores_two_clock_readings_witness :
  DeskCreate_ok desk_14G = true
  /\ ClassroomCreate_ok classroom_417 = true
  /\ PyDict.mem (cb_id classroom_417) (classrooms one_desk_world) = false
  /\ create_desk hex_uuid desk_14G one_desk_world
     = (Ok {| dr_id := 2%N; dr_label := "14G"; dr_hand_config := "Left";
              dr_created_at := 1002; dr_updated_at := 1003 |},
        with_ticks
          (with_desks one_desk_world
             [(1%N, read_12H);
              (2%N, {| dr_id := 2%N; dr_label := "14G"; dr_hand_config := "Left";
                       dr_created_at := 1002; dr_updated_at := 1003 |})])
          4)
  /\ create_classroom hex_uuid classroom_417 one_desk_world
     = (Ok {| cr_id := 7%N; cr_room_no := "417";
              cr_building := "International Affairs Building";
              cr_university := None; cr_desks := [desk_14G];
              cr_created_at := 1002; cr_updated_at := 1003 |},
        with_ticks
          (with_classrooms one_desk_world
             [(7%N, {| cr_id := 7%N; cr_room_no := "417";
                       cr_building := "International Affairs Building";
                       cr_university := None; cr_desks := [desk_14G];
                       cr_created_at := 1002; cr_updated_at := 1003 |})])
          4).
Proof.
  destruct (@create_stores_two_clock_readings hex_uuid desk_14G classroom_417
              one_desk_world eq_refl eq_refl eq_refl)
    as (Hdesk & _ & Hclassroom & _).
  split; [reflexivity|]. split; [reflexivity|]. split; [reflexivity|].
  split; [exact Hdesk | exact Hclassroom].
Defined.

(** C9, against the statement as it is worded.  With a clock that runs
    backwards, the desk created on the empty store is stored with
    [created_at] 1000 and [updated_at] 999. *)
Lemma backward_clock_breaks_stamp_order :
  desks backward_world = []
  /\ classrooms backward_world = []
  /\ desks (run hex_uuid backward_world [CreateDesk desk_12H])
     = [(1%N, {| dr_id := 1%N; dr_label := "12H"; dr_hand_config := "Right";
                 dr_created_at := 1000; dr_updated_at := 999 |})]
  /\ ~ stamps_ordered (run hex_uuid backward_world [CreateDesk desk_12H]).
Proof.
  split; [reflexivity|]. split; [reflexivity|]. split; [reflexivity|].
  intros [Hd _]. inversion Hd as [|kv l Hle Hl]; subst.
  cbn in Hle. lia.
Qed.

(** C7 at a stored desk: the body carries the id 9, the record keeps the id
    1 of the path, the creation time 1000 of the stored record, and takes the
    reading 1002 of the clock as its update time. *)
Lemma replace_desk_spec_witness :
  DeskCreate_ok desk_body_12J = true
  /\ replace_desk hex_uuid 1%N desk_body_12J one_desk_world
     = (Ok {| dr_id := 1%N; dr_label := "12J"; dr_hand_config := "Left";
              dr_created_at := 1000; dr_updated_at := 1002 |},
        with_ticks
          (with_desks one_desk_world
             [(1%N, {| dr_id := 1%N; dr_label := "12J"; dr_hand_config := "Left";
                       dr_created_at := 1000; dr_updated_at := 1002 |})])
          3)
  /\ PyDict.get 1%N (desks (after (replace_desk hex_uuid 1%N desk_body_12J)
                                  one_desk_world))
     = Some {| dr_id := 1%N; dr_label := "12J"; dr_hand_config := "Left";
               dr_created_at := 1000; dr_updated_at := 1002 |}
  /\ classrooms (after (replace_desk hex_uuid 1%N desk_body_12J) one_desk_world)
     = classrooms one_desk_world.
Proof.
  split; [reflexivity|].
  destruct (@replace_desk_spec hex_uuid 1%N desk_body_12J one_desk_world eq_refl)
    as [Heq Hstored].
  split; [exact Heq|]. exact Hstored.
Defined.

(** C9 along the sample history. *)
Lemma updated_at_never_before_created_at_witness :
  clock_monotone fresh_world
  /\ desks fresh_world = []
  /\ classrooms fresh_world = []
  /\ stamps_ordered (run hex_uuid fresh_world sample_history).
Proof.
  assert (Hm : clock_monotone fresh_world)
    by (intros i j Hij;
        change (1000 + Z.of_nat i <= 1000 + Z.of_nat j); lia).
  split; [exact Hm|]. split; [reflexivity|]. split; [reflexivity|].
  apply (@updated_at_never_before_created_at hex_uuid fresh_world sample_history);
    [exact Hm | reflexivity | reflexivity].
Defined.

(** C10 for two desks created one after the other. *)
Lemma list_desks_in_creation_order_witness :
  desks fresh_world = []
  /\ create_all hex_uuid [desk_12H; desk_14G] fresh_world
     = (Ok [read_12H; read_14G], two_desks_world)
  /\ list_desks None None two_desks_world
     = (Ok [read_12H; read_14G], two_desks_world).
Proof.
  split; [reflexivity|]. split; [reflexivity|].
  apply (@list_desks_in_creation_order hex_uuid [desk_12H; desk_14G] fresh_world);
    reflexivity.
Defined.

(** * The further properties at the sample data *)

(** X1 for a patch that supplies the label only. *)
Lemma update_desk_merges_supplied_fields_witness :
  PyDict.get 1%N (desks one_desk_world) = Some read_12H
  /\ DeskConfig_ok (or_else None (dr_hand_config read_12H)) = true
  /\ update_desk hex_uuid 1%N (desk_patch (Some "12J") None) one_desk_world
     = (Ok read_12J, with_desks one_desk_world [(1%N, read_12J)]).
Proof.
  split; [reflexivity|]. split; [reflexivity|].
  apply (@update_desk_merges_supplied_fields hex_uuid 1%N (Some "12J") None
           read_12H one_desk_world eq_refl eq_refl).
Defined.

(** X2 for a patch that supplies [None] as the label. *)
Lemma update_desk_rejects_unusable_patch_witness :
  PyDict.get 1%N (desks one_desk_world) = Some read_12H
  /\ du_label patch_null_label = Some None
  /\ update_desk hex_uuid 1%N patch_null_label one_desk_world
     = (Raise ValidationError, one_desk_world).
Proof.
  split; [reflexivity|]. split; [reflexivity|].
  apply (@update_desk_rejects_unusable_patch hex_uuid 1%N patch_null_label
           read_12H one_desk_world eq_refl (or_introl eq_refl)).
Defined.

(** X3 for a body that names an id and a creation time of its own. *)
Lemma patch_desk_keeps_ids_and_stamps_witness :
  PyDict.get 1%N (desks one_desk_world) = Some read_12H
  /\ (exists r,
        PyDict.get 1%N
          (desks (after (patch_desk hex_uuid 1%N body_patch_with_stamps)
                        one_desk_world)) = Some r
        /\ dr_id r = 1%N /\ dr_created_at r = 1000 /\ dr_updated_at r = 1001).
Proof.
  split; [reflexivity|].
  apply (@patch_desk_keeps_ids_and_stamps hex_uuid 1%N body_patch_with_stamps
           one_desk_world 1%N read_12H eq_refl).
Defined.

(** X4 on the empty store: the first identifier drawn is 500. *)
Lemma post_desks_draws_missing_id_witness :
  PyDict.get "id" kw_no_id = None
  /\ PyDict.get "label" kw_no_id = Some (VStr "14G")
  /\ PyDict.get "hand_config" kw_no_id = Some (VStr "Left")
  /\ DeskConfig_ok "Left" = true
  /\ PyDict.mem (uuid_src fresh_world (uuid_draws fresh_world)) (desks fresh_world)
     = false
  /\ post_desks hex_uuid (VDict kw_no_id) fresh_world
     = (Ok read_500,
        with_ticks
          (with_uuid_draws (with_desks fresh_world [(500%N, read_500)]) 1) 2).
Proof.
  repeat (split; [reflexivity|]).
  apply (@post_desks_draws_missing_id hex_uuid kw_no_id "14G" "Left" fresh_world
           eq_refl eq_refl eq_refl eq_refl eq_refl).
Defined.

(** X5 for a body that names timestamps of its own. *)
Lemma post_desks_stamps_come_from_clock_witness :
  post_desks hex_uuid (VDict kw_with_stamps) fresh_world
  = (Ok read_3C, with_ticks (with_desks fresh_world [(3%N, read_3C)]) 2)
  /\ dr_created_at read_3C = clock fresh_world (ticks fresh_world)
  /\ dr_updated_at read_3C = clock fresh_world (S (ticks fresh_world))
  /\ DeskConfig_ok (dr_hand_config read_3C) = true.
Proof.
  split; [reflexivity|].
  destruct (@post_desks_stamps_come_from_clock hex_uuid (VDict kw_with_stamps)
              fresh_world
              (with_ticks (with_desks fresh_world [(3%N, read_3C)]) 2)
              read_3C eq_refl) as (H1 & H2 & H3 & _).
  split; [exact H1|]. split; [exact H2 | exact H3].
Defined.

(** X6 for a body with the hand configuration "Up". *)
Lemma desk_body_with_bad_hand_config_rejected_witness :
  PyDict.get "hand_config" kw_bad_desk = Some (VStr "Up")
  /\ DeskConfig_ok "Up" = false
  /\ exists w1,
       post_desks hex_uuid (VDict kw_bad_desk) one_desk_world
       = (Raise RequestValidationError, w1)
       /\ put_desk hex_uuid 1%N (VDict kw_bad_desk) one_desk_world
          = (Raise RequestValidationError, w1)
       /\ only_draws one_desk_world w1.
Proof.
  split; [reflexivity|]. split; [reflexivity|].
  apply (@desk_body_with_bad_hand_config_rejected hex_uuid 1%N kw_bad_desk "Up"
           one_desk_world eq_refl eq_refl).
Defined.

(** X7 for a classroom body whose second desk has the hand configuration
    "Up". *)
Lemma classroom_body_with_bad_desk_rejected_witness :
  PyDict.get "desks" kw_bad_classroom
  = Some (VList [VDict kw_no_id; VDict kw_bad_desk])
  /\ In (VDict kw_bad_desk) [VDict kw_no_id; VDict kw_bad_desk]
  /\ PyDict.get "hand_config" kw_bad_desk = Some (VStr "Up")
  /\ DeskConfig_ok "Up" = false
  /\ exists w1 w2,
       post_classrooms hex_uuid (VDict kw_bad_classroom) one_classroom_world
       = (Raise RequestValidationError, w1)
       /\ put_classroom hex_uuid 7%N (VDict kw_bad_classroom) one_classroom_world
          = (Raise RequestValidationError, w1)
       /\ patch_classroom hex_uuid 7%N (VDict kw_bad_classroom) one_classroom_world
          = (Raise RequestValidationError, w2)
       /\ only_draws one_classroom_world w1
       /\ only_draws one_classroom_world w2.
Proof.
  assert (Hin : In (VDict kw_bad_desk) [VDict kw_no_id; VDict kw_bad_desk])
    by (right; left; reflexivity).
  split; [reflexivity|]. split; [exact Hin|].
  split; [reflexivity|]. split; [reflexivity|].
  apply (@classroom_body_with_bad_desk_rejected hex_uuid 7%N kw_bad_classroom
           [VDict kw_no_id; VDict kw_bad_desk] kw_bad_desk "Up"
           one_classroom_world eq_refl Hin eq_refl eq_refl).
Defined.

(** X8: the desk 14G behind the stored one, then another body under its
    id. *)
Lemma create_desk_then_get_and_conflict_witness :
  PyDict.mem (db_id desk_14G) (desks one_desk_world) = false
  /\ DeskCreate_ok desk_14G = true
  /\ db_id desk_2B = db_id desk_14G
  /\ exists r w',
       create_desk hex_uuid desk_14G one_desk_world = (Ok r, w')
       /\ get_desk (db_id desk_14G) w' = (Ok r, w')
       /\ create_desk hex_uuid desk_2B w'
          = (Raise (HTTPException 400 "Desk with this ID already exists"), w').
Proof.
  repeat (split; [reflexivity|]).
  apply (@create_desk_then_get_and_conflict hex_uuid desk_14G desk_2B
           one_desk_world eq_refl eq_refl eq_refl).
Defined.

(** X9 along the sample history. *)
Lemma stored_hand_configs_are_valid_witness :
  desks fresh_world = []
  /\ classrooms fresh_world = []
  /\ configs_valid (run hex_uuid fresh_world sample_history).
Proof.
  split; [reflexivity|]. split; [reflexivity|].
  apply (@stored_hand_configs_are_valid hex_uuid fresh_world sample_history
           eq_refl eq_refl).
Defined.

(** X10 along the sample history, for the id 7. *)
Lemma records_are_stored_under_their_id_witness :
  desks fresh_world = []
  /\ classrooms fresh_world = []
  /\ (forall r, fst (get_desk 7%N (run hex_uuid fresh_world sample_history)) = Ok r ->
                dr_id r = 7%N)
  /\ (forall r, fst (get_classrooom 7%N (run hex_uuid fresh_world sample_history))
                = Ok r -> cr_id r = 7%N).
Proof.
  split; [reflexivity|]. split; [reflexivity|].
  apply (@records_are_stored_under_their_id hex_uuid fresh_world sample_history
           7%N eq_refl eq_refl).
Defined.

(** X11 for a creation under a taken id. *)
Lemma failed_request_changes_no_store_witness :
  request_fails hex_uuid one_desk_world (CreateDesk desk_12H) = true
  /\ desks (step hex_uuid one_desk_world (CreateDesk desk_12H))
     = desks one_desk_world
  /\ classrooms (step hex_uuid one_desk_world (CreateDesk desk_12H))
     = classrooms one_desk_world.
Proof.
  split; [reflexivity|].
  apply (@failed_request_changes_no_store hex_uuid one_desk_world
           (CreateDesk desk_12H) eq_refl).
Defined.

(** X12 for [get_desk]. *)
Lemma reads_change_nothing_witness :
  is_read_request (GetDesk 1%N) = true
  /\ step hex_uuid one_desk_world (GetDesk 1%N) = one_desk_world.
Proof.
  split; [reflexivity|].
  apply (@reads_change_nothing hex_uuid one_desk_world (GetDesk 1%N) eq_refl).
Defined.

(** X14 for a replacement of the stored desk. *)
Lemma desk_created_at_is_fixed_witness :
  PyDict.get 1%N (desks one_desk_world) = Some read_12H
  /\ ReplaceDesk 1%N desk_body_12J <> DeleteDesk 1%N
  /\ exists cur',
       PyDict.get 1%N (desks (step hex_uuid one_desk_world
                                   (ReplaceDesk 1%N desk_body_12J))) = Some cur'
       /\ dr_created_at cur' = dr_created_at read_12H.
Proof.
  assert (Hne : ReplaceDesk 1%N desk_body_12J <> DeleteDesk 1%N)
    by discriminate.
  split; [reflexivity|]. split; [exact Hne|].
  apply (@desk_created_at_is_fixed hex_uuid one_desk_world
           (ReplaceDesk 1%N desk_body_12J) 1%N read_12H eq_refl Hne).
Defined.

(** X15 after two creations. *)
Lemma deleted_desk_is_gone_witness :
  desks fresh_world = []
  /\ classrooms fresh_world = []
  /\ PyDict.mem 1%N (desks (run hex_uuid fresh_world two_creations)) = true
  /\ exists w',
       delete_desk 1%N (run hex_uuid fresh_world two_creations)
       = (Ok [("confirmation", VStr "Desk deleted successfully")], w')
       /\ get_desk 1%N w' = (Raise (HTTPException 404 "Desk not found"), w')
       /\ classrooms w' = classrooms (run hex_uuid fresh_world two_creations)
       /\ forall k, k <> 1%N ->
            PyDict.get k (desks w')
            = PyDict.get k (desks (run hex_uuid fresh_world two_creations)).
Proof.
  repeat (split; [reflexivity|]).
  apply (@deleted_desk_is_gone hex_uuid fresh_world two_creations 1%N
           eq_refl eq_refl eq_refl).
Defined.

(** X16 after the creation of one classroom. *)
Lemma deleted_classroom_is_gone_witness :
  desks fresh_world = []
  /\ classrooms fresh_world = []
  /\ PyDict.mem 7%N
       (classrooms (run hex_uuid fresh_world [CreateClassroom classroom_502]))
     = true
  /\ exists w',
       delete_classroom 7%N
         (run hex_uuid fresh_world [CreateClassroom classroom_502])
       = (Ok [("confirmation", VStr "Classroom deleted successfully")], w')
       /\ get_classrooom 7%N w'
          = (Raise (HTTPException 404 "Classroom not found"), w')
       /\ desks w'
          = desks (run hex_uuid fresh_world [CreateClassroom classroom_502])
       /\ forall k, k <> 7%N ->
            PyDict.get k (classrooms w')
            = PyDict.get k
                (classrooms (run hex_uuid fresh_world
                                 [CreateClassroom classroom_502])).
Proof.
  repeat (split; [reflexivity|]).
  apply (@deleted_classroom_is_gone hex_uuid fresh_world
           [CreateClassroom classroom_502] 7%N eq_refl eq_refl eq_refl).
Defined.

(** X17 for the stored classroom 7 and the body of room 417. *)
Lemma replace_classroom_on_stored_id_witness :
  PyDict.get 7%N (classrooms one_classroom_world) = Some read_502
  /\ ClassroomCreate_ok classroom_417 = true
  /\ replace_classroom hex_uuid 7%N classroom_417 one_classroom_world
     = (Ok (MClassroomRead
              {| cr_id := 7%N; cr_room_no := "417";
                 cr_building := "International Affairs Building";
                 cr_university := None; cr_desks := [desk_14G];
                 cr_created_at := 1000; cr_updated_at := 1002 |}),
        with_ticks
          (with_classrooms one_classroom_world
             [(7%N, {| cr_id := 7%N; cr_room_no := "417";
                       cr_building := "International Affairs Building";
                       cr_university := None; cr_desks := [desk_14G];
                       cr_created_at := 1000; cr_updated_at := 1002 |})])
          3).
Proof.
  split; [reflexivity|]. split; [reflexivity|].
  apply (@replace_classroom_on_stored_id hex_uuid 7%N classroom_417 read_502
           one_classroom_world eq_refl eq_refl).
Defined.

(** X18 for a patch that supplies a room number and clears the
    university. *)
Lemma update_classroom_merges_supplied_fields_witness :
  PyDict.get 7%N (classrooms one_classroom_world) = Some read_502
  /\ forallb DeskCreate_ok (cr_desks read_502) = true
  /\ update_classroom hex_uuid 7%N (classroom_patch (Some "602") None (Some None))
       one_classroom_world
     = (Ok {| cr_id := 7%N; cr_room_no := "602";
              cr_building := "Northwest Corner Building";
              cr_university := None; cr_desks := [desk_12H];
              cr_created_at := 1000; cr_updated_at := 1001 |},
        with_classrooms one_classroom_world
          [(7%N, {| cr_id := 7%N; cr_room_no := "602";
                    cr_building := "Northwest Corner Building";
                    cr_university := None; cr_desks := [desk_12H];
                    cr_created_at := 1000; cr_updated_at := 1001 |})]).
Proof.
  split; [reflexivity|]. split; [reflexivity|].
  apply (@update_classroom_merges_supplied_fields hex_uuid 7%N (Some "602") None
           (Some None) read_502 one_classroom_world eq_refl eq_refl).
Defined.

(** X19 for a list of two desks, the second without a supplied id. *)
Lemma update_classroom_replaces_desks_witness :
  PyDict.get 7%N (classrooms one_classroom_world) = Some read_502
  /\ forallb DeskCreate_ok [desk_14G; desk_4A_generated] = true
  /\ exists r w1,
       update_classroom hex_uuid 7%N (desks_patch [desk_14G; desk_4A_generated])
         one_classroom_world
       = (Ok r, with_classrooms w1
                  (PyDict.set 7%N r (classrooms one_classroom_world)))
       /\ only_draws one_classroom_world w1
       /\ cr_id r = 7%N
       /\ cr_room_no r = "502"
       /\ cr_building r = "Northwest Corner Building"
       /\ cr_university r = Some "Columbia University"
       /\ cr_created_at r = 1000
       /\ cr_updated_at r = 1001
       /\ map db_label (cr_desks r) = ["14G"; "4A"]
       /\ map db_hand_config (cr_desks r) = ["Left"; "Left"]
       /\ Forall2 (fun d d' => db_id_set d' = db_id_set d
                               /\ (db_id_set d = true -> db_id d' = db_id d))
                  [desk_14G; desk_4A_generated] (cr_desks r).
Proof.
  split; [reflexivity|]. split; [reflexivity|].
  apply (@update_classroom_replaces_desks hex_uuid 7%N
           [desk_14G; desk_4A_generated] read_502 one_classroom_world
           eq_refl eq_refl).
Defined.

(** X20 for a patch that supplies [None] as the room number. *)
Lemma update_classroom_rejects_null_field_witness :
  PyDict.get 7%N (classrooms one_classroom_world) = Some read_502
  /\ cu_room_no classroom_patch_null_room = Some None
  /\ exists w1,
       update_classroom hex_uuid 7%N classroom_patch_null_room one_classroom_world
       = (Raise ValidationError, w1)
       /\ classrooms w1 = classrooms one_classroom_world
       /\ desks w1 = desks one_classroom_world.
Proof.
  split; [reflexivity|]. split; [reflexivity|].
  apply (@update_classroom_rejects_null_field hex_uuid 7%N
           classroom_patch_null_room read_502 one_classroom_world eq_refl
           (or_introl eq_refl)).
Defined.

(** X22 for the desk 12H. *)
Lemma desk_models_survive_dump_witness :
  DeskCreate_ok desk_12H = true
  /\ DeskConfig_ok (dr_hand_config read_12H) = true
  /\ DeskBase_validate hex_uuid (DeskBase_dump desk_12H) fresh_world
     = (Some desk_12H, fresh_world)
  /\ DeskRead_validate hex_uuid (DeskRead_dump read_12H) fresh_world
     = (Some read_12H, fresh_world).
Proof.
  split; [reflexivity|]. split; [reflexivity|].
  apply (@desk_models_survive_dump hex_uuid desk_12H read_12H fresh_world
           eq_refl eq_refl).
Defined.

(** X23 for the classroom 502. *)
Lemma classroom_models_survive_dump_witness :
  ClassroomCreate_ok classroom_502 = true
  /\ forallb DeskCreate_ok (cr_desks read_502) = true
  /\ ClassroomBase_validate hex_uuid (ClassroomBase_dump classroom_502) fresh_world
     = (Some classroom_502, fresh_world)
  /\ ClassroomRead_validate hex_uuid (ClassroomRead_dump read_502) fresh_world
     = (Some read_502, fresh_world).
Proof.
  split; [reflexivity|]. split; [reflexivity|].
  apply (@classroom_models_survive_dump hex_uuid classroom_502 read_502
           fresh_world eq_refl eq_refl).
Defined.

(** X24 on the stored desk 1. *)
Lemma replace_desk_twice_witness :
  DeskCreate_ok desk_body_12J = true
  /\ exists r1 w1 r2 w2,
       replace_desk hex_uuid 1%N desk_body_12J one_desk_world = (Ok r1, w1)
       /\ replace_desk hex_uuid 1%N desk_body_12J w1 = (Ok r2, w2)
       /\ dr_id r2 = dr_id r1
       /\ dr_label r2 = dr_label r1
       /\ dr_hand_config r2 = dr_hand_config r1
       /\ dr_created_at r2 = dr_created_at r1
       /\ dr_updated_at r2 = clock w1 (ticks w1)
       /\ PyDict.keys (desks w2) = PyDict.keys (desks w1).
Proof.
  split; [reflexivity|].
  apply (@replace_desk_twice hex_uuid 1%N desk_body_12J one_desk_world eq_refl).
Defined.

(** X25 for the classroom of room 417 in a world without classrooms. *)
Lemma create_classroom_then_get_witness :
  ClassroomCreate_ok classroom_417 = true
  /\ exists r w',
       create_classroom hex_uuid classroom_417 one_desk_world = (Ok r, w')
       /\ get_classrooom 7%N w' = (Ok r, w')
       /\ desks w' = desks one_desk_world
       /\ forall k, k <> 7%N ->
            PyDict.get k (classrooms w') = PyDict.get k (classrooms one_desk_world).
Proof.
  split; [reflexivity|].
  apply (@create_classroom_then_get hex_uuid classroom_417 one_desk_world eq_refl).
Defined.
